(** * Execution-cache admission webhook: [backend/src/cache/server/mutation.go]

    A shallow embedding of the Go package [server] of the execution-cache
    service: the eligibility filter ([isValidPod], [isKFPArgoPod],
    [isTFXPod]), the cache-key derivation ([generateCacheKeyFromTemplate])
    and the admission decision ([MutatePodIfCached]).

    Conventions of the embedding.
    - A Go [string] is a Rocq [string] (a sequence of bytes), [[]byte] is
      [list byte], [int64] is [Z], [int] lengths are [nat] or [Z].
    - A Go map is [option (gmap string V)]: [None] is the nil map, on which
      reads succeed and writes panic.  A Go slice whose nil-ness the code
      observes is [option (list A)]: [None] is the nil slice.
    - A Go call either returns or panics: [outcome].  Code that writes to
      the maps of the decoded pod runs in [Exec], a state monad over the
      pod, because Go maps are references: the locals [annotations] and
      [labels] of [MutatePodIfCached] alias the pod's own maps.
    - The functions of [strings], [strconv], [encoding/hex] and
      [crypto/sha256] that the package calls are defined here; the
      Kubernetes deserializer and [encoding/json] are fields of the class
      [GoLibraries]; the cache store is the interface the source declares.
    - Calls to [log.Printf] and [log.Println] have no effect on the result
      and are left out. *)

From Stdlib Require Import ZArith List DecimalString.
From Stdlib.Strings Require Import String Ascii Byte.
From stdpp Require Import gmap strings list fin_maps sorting.

Open Scope string_scope.
Open Scope list_scope.

(** ** Results of Go calls *)

(** Go's [error] values, identified with their message. *)
Definition error : Type := string.

(** A call returns a value or panics. *)
Inductive outcome (A : Type) : Type :=
| Returned (a : A)
| Panicked (msg : string).
Arguments Returned {A} a.
Arguments Panicked {A} msg.

#[export] Instance outcome_ret : MRet outcome := fun A a => Returned a.
#[export] Instance outcome_bind : MBind outcome := fun A B f m =>
  match m with
  | Returned a => f a
  | Panicked msg => Panicked msg
  end.

(** The [(value, err)] result of a library call: [err == nil] or not. *)
Inductive goresult (A : Type) : Type :=
| ok (a : A)
| fail (err : error).
Arguments ok {A} a.
Arguments fail {A} err.

(** Bytes are compared by value. *)
#[export] Instance byte_eq_decision : EqDecision byte := Byte.byte_eq_dec.

(** ** Go built-ins on maps and slices *)

(** [p == nil] for a map or a slice. *)
Definition isNil {A : Type} (p : option A) : bool :=
  match p with
  | None => true
  | Some _ => false
  end.

Section builtins.
Context {V : Type}.

(** [v, exists := m[k]]: [Some v] when the key exists, [None] when it does
    not ([exists] is false and [v] the zero value, which no caller in this
    package reads).  A read of the nil map finds nothing. *)
Definition mapIndex (m : option (gmap string V)) (k : string) : option V :=
  match m with
  | None => None
  | Some g => g !! k
  end.

(** [m[k] = v]: a write to the nil map panics. *)
Definition mapAssign (m : option (gmap string V)) (k : string) (v : V)
  : outcome (option (gmap string V)) :=
  match m with
  | None => Panicked "assignment to entry in nil map"
  | Some g => Returned (Some (<[k:=v]> g))
  end.

(** [delete(m, k)]: a no-op on the nil map. *)
Definition mapDelete (m : option (gmap string V)) (k : string)
  : option (gmap string V) :=
  match m with
  | None => None
  | Some g => Some (delete k g)
  end.

(** [len(m)] for a map. *)
Definition mapLen (m : option (gmap string V)) : nat :=
  match m with
  | None => 0
  | Some g => size g
  end.

(** The keys a [for k := range m] loop visits, in some order. *)
Definition mapKeys (m : option (gmap string V)) : list string :=
  match m with
  | None => []
  | Some g => (map_to_list g).*1
  end.

End builtins.

Section slices.
Context {A : Type}.

(** The elements of a slice; the nil slice has none. *)
Definition elems (s : option (list A)) : list A :=
  match s with
  | None => []
  | Some l => l
  end.

(** [s[i]]: an index out of range panics. *)
Definition sliceIndex (s : list A) (i : Z) : outcome A :=
  if (i <? 0)%Z then Panicked "index out of range"
  else match s !! Z.to_nat i with
       | Some x => Returned x
       | None => Panicked "index out of range"
       end.

End slices.

(** ** Package [strings] *)

(** [strings.HasPrefix(s, prefix)]. *)
Fixpoint HasPrefix (s prefix : string) {struct prefix} : bool :=
  match prefix, s with
  | EmptyString, _ => true
  | String _ _, EmptyString => false
  | String p prefix', String c s' => Ascii.eqb c p && HasPrefix s' prefix'
  end.

(** [strings.HasSuffix(s, suffix)]:
    [len(s) >= len(suffix) && s[len(s)-len(suffix):] == suffix]. *)
Definition HasSuffix (s suffix : string) : bool :=
  (String.length suffix <=? String.length s)%nat
  && String.eqb (substring (String.length s - String.length suffix)
                           (String.length suffix) s) suffix.

(** [strings.Contains(s, substr)]: [substr] occurs at some offset of [s]. *)
Fixpoint Contains (s substr : string) : bool :=
  HasPrefix s substr ||
  match s with
  | EmptyString => false
  | String _ s' => Contains s' substr
  end.

(** ** Package [strconv] *)

(** [strconv.FormatInt(i, 10)]: the decimal digits, with a leading minus
    sign for a negative number. *)
Definition FormatInt (i : Z) : string := NilZero.string_of_int (Z.to_int i).

(** ** Package [encoding/hex] *)

Definition hextable : string := "0123456789abcdef".

(** [hextable[i]]. *)
Definition hexdigit (i : N) : ascii :=
  match String.get (N.to_nat i) hextable with
  | Some c => c
  | None => "0"%char
  end.

(** [hex.EncodeToString(src)]: two digits per byte, [hextable[v>>4]] then
    [hextable[v&0x0f]]. *)
Fixpoint EncodeToString (src : list byte) : string :=
  match src with
  | [] => ""
  | v :: rest =>
      String (hexdigit (N.shiftr (Byte.to_N v) 4))
        (String (hexdigit (N.land (Byte.to_N v) 15)) (EncodeToString rest))
  end.

(** ** Package [crypto/sha256] *)

Module sha256.

(** A [uint32] is an [N] below [2^32]; arithmetic wraps. *)
Definition mask32 : N := 4294967295.

Definition add32 (x y : N) : N := N.land (x + y) mask32.

(** [bits.RotateLeft32(x, -k)]. *)
Definition rotr (x k : N) : N :=
  N.lor (N.shiftr x k) (N.land (N.shiftl x (32 - k)) mask32).

(** [^x] on a [uint32]. *)
Definition not32 (x : N) : N := N.lxor x mask32.

Definition init : list N :=
  [1779033703; 3144134277; 1013904242; 2773480762;
   1359893119; 2600822924; 528734635; 1541459225]%N.

Definition _K : list N :=
  [1116352408; 1899447441; 3049323471; 3921009573; 961987163; 1508970993;
   2453635748; 2870763221; 3624381080; 310598401; 607225278; 1426881987;
   1925078388; 2162078206; 2614888103; 3248222580; 3835390401; 4022224774;
   264347078; 604807628; 770255983; 1249150122; 1555081692; 1996064986;
   2554220882; 2821834349; 2952996808; 3210313671; 3336571891; 3584528711;
   113926993; 338241895; 666307205; 773529912; 1294757372; 1396182291;
   1695183700; 1986661051; 2177026350; 2456956037; 2730485921; 2820302411;
   3259730800; 3345764771; 3516065817; 3600352804; 4094571909; 275423344;
   430227734; 506948616; 659060556; 883997877; 958139571; 1322822218;
   1537002063; 1747873779; 1955562222; 2024104815; 2227730452; 2361852424;
   2428436474; 2756734187; 3204031479; 3329325298]%N.

(** The message followed by the padding: [0x80], zero bytes up to 56 modulo
    64, and the bit length as a big-endian [uint64]. *)
Definition be_bytes (width : nat) (x : N) : list byte :=
  map (fun i => match Byte.of_N (N.land (N.shiftr x (8 * N.of_nat i)) 255) with
                | Some b => b
                | None => x00
                end)
      (rev (seq 0 width)).

Definition padded (msg : list byte) : list byte :=
  let n := length msg in
  let zeros := ((64 - (n + 1 + 8) mod 64) mod 64)%nat in
  msg ++ [x80] ++ repeat x00 zeros ++ be_bytes 8 (8 * N.of_nat n).

(** Big-endian [uint32] words of a byte sequence. *)
Fixpoint words (bs : list byte) : list N :=
  match bs with
  | b0 :: b1 :: b2 :: b3 :: rest =>
      N.lor (N.shiftl (Byte.to_N b0) 24)
        (N.lor (N.shiftl (Byte.to_N b1) 16)
           (N.lor (N.shiftl (Byte.to_N b2) 8) (Byte.to_N b3)))
      :: words rest
  | _ => []
  end.

(** The message schedule: [w[i]] for [i] from 16 on. *)
Fixpoint schedule (count : nat) (w : list N) : list N :=
  match count with
  | O => w
  | S count' =>
      let i := length w in
      let v1 := nth (i - 2) w 0%N in
      let t1 := N.lxor (N.lxor (rotr v1 17) (rotr v1 19)) (N.shiftr v1 10) in
      let v2 := nth (i - 15) w 0%N in
      let t2 := N.lxor (N.lxor (rotr v2 7) (rotr v2 18)) (N.shiftr v2 3) in
      schedule count'
        (w ++ [add32 (add32 (add32 t1 (nth (i - 7) w 0%N)) t2) (nth (i - 16) w 0%N)])
  end.

(** The eight working variables [a] to [h]. *)
Record vars : Type := Vars { va : N; vb : N; vc : N; vd : N; ve : N; vf : N; vg : N; vh : N }.

(** One round of the compression loop. *)
Definition round (s : vars) (kw : N * N) : vars :=
  let '(Vars a b c d e f g h) := s in
  let t1 :=
    add32 (add32 (add32 (add32 h
      (N.lxor (N.lxor (rotr e 6) (rotr e 11)) (rotr e 25)))
      (N.lxor (N.land e f) (N.land (not32 e) g)))
      (fst kw)) (snd kw) in
  let t2 :=
    add32 (N.lxor (N.lxor (rotr a 2) (rotr a 13)) (rotr a 22))
          (N.lxor (N.lxor (N.land a b) (N.land a c)) (N.land b c)) in
  Vars (add32 t1 t2) a b c (add32 d t1) e f g.

(** [block]: one 64-byte chunk, as 16 words, folded into the hash state. *)
Definition block (hs : list N) (chunk : list N) : list N :=
  let w := schedule 48 chunk in
  let s0 := Vars (nth 0 hs 0%N) (nth 1 hs 0%N) (nth 2 hs 0%N) (nth 3 hs 0%N)
                 (nth 4 hs 0%N) (nth 5 hs 0%N) (nth 6 hs 0%N) (nth 7 hs 0%N) in
  let '(Vars a b c d e f g h) := fold_left round (combine _K w) s0 in
  zip_with add32 hs [a; b; c; d; e; f; g; h].

Fixpoint blocks (count : nat) (hs : list N) (ws : list N) : list N :=
  match count with
  | O => hs
  | S count' => blocks count' (block hs (firstn 16 ws)) (skipn 16 ws)
  end.

(** [h := sha256.New(); h.Write(b); h.Sum(nil)]. *)
Definition Sum (b : list byte) : list byte :=
  let ws := words (padded b) in
  concat (map (be_bytes 4) (blocks (length ws / 16) init ws)).

End sha256.

(** ** Kubernetes and cache-model types, with the fields the package reads *)

Module metav1.

(** [metav1.GroupVersionResource]. *)
Record GroupVersionResource : Type := {
  Group : string;
  Version : string;
  Resource : string
}.

#[global] Instance GroupVersionResource_eq_dec : EqDecision GroupVersionResource.
Proof. solve_decision. Defined.

(** [metav1.ObjectMeta]. *)
Record ObjectMeta : Type := {
  Name : string;
  Annotations : option (gmap string string);
  Labels : option (gmap string string)
}.

End metav1.

Module corev1.

(** [corev1.Container]. *)
Record Container : Type := {
  Name : string;
  Image : string;
  Command : list string
}.

(** [corev1.PodSpec]. *)
Record PodSpec : Type := {
  InitContainers : option (list Container);
  Containers : option (list Container)
}.

(** [corev1.Pod]. *)
Record Pod : Type := {
  ObjectMeta : metav1.ObjectMeta;
  Spec : PodSpec
}.

End corev1.

Module model.

(** [model.ExecutionCache]: a cached execution. *)
Record ExecutionCache : Type := {
  ID : Z;
  ExecutionOutput : string
}.

End model.

Module v1beta1.

(** [v1beta1.AdmissionRequest]; [Raw] is [req.Object.Raw]. *)
Record AdmissionRequest : Type := {
  Resource : metav1.GroupVersionResource;
  Raw : list byte
}.

End v1beta1.

Module storage.

(** [storage.ExecutionCacheStoreInterface]: the lookup returns a record
    pointer (possibly nil) and an error (possibly nil). *)
Record ExecutionCacheStoreInterface : Type := {
  GetExecutionCache : string -> option model.ExecutionCache * option error
}.

End storage.

(** [ClientManagerInterface], as declared in the package. *)
Record ClientManagerInterface : Type := {
  CacheStore : storage.ExecutionCacheStoreInterface
}.

(** Functions of other packages that the package calls. *)
Class GoLibraries : Type := {
  (** The dynamic values [encoding/json] builds for [interface{}]. *)
  JSONValue : Type;
  (** [json.Unmarshal(b, &templateMap)] for a [map[string]interface{}]:
      the decoded map (nil for the JSON text [null]) or an error. *)
  json_Unmarshal : list byte -> goresult (option (gmap string JSONValue));
  (** [json.Marshal(templateMap)]. *)
  json_Marshal : option (gmap string JSONValue) -> goresult (list byte);
  (** [universalDeserializer.Decode(raw, nil, &pod)]. *)
  universalDeserializer_Decode : list byte -> goresult corev1.Pod
}.

(** ** Package [server]: constants *)

Definition KFPAnnotation : string := "pipelines.kubeflow.org".
Definition ArgoWorkflowNodeName : string := "workflows.argoproj.io/node-name".
Definition ArgoWorkflowTemplate : string := "workflows.argoproj.io/template".
Definition ExecutionKey : string := "pipelines.kubeflow.org/execution_cache_key".
Definition CacheIDLabelKey : string := "pipelines.kubeflow.org/cache_id".
Definition AnnotationPath : string := "/metadata/annotations".
Definition LabelPath : string := "/metadata/labels".
Definition ArgoWorkflowOutputs : string := "workflows.argoproj.io/outputs".
Definition TFXPodSuffix : string :=
  "tfx/orchestration/kubeflow/container_entrypoint.py".
Definition ArchiveLocationKey : string := "archiveLocation".

Definition podResource : metav1.GroupVersionResource :=
  {| metav1.Group := ""; metav1.Version := "v1"; metav1.Resource := "pods" |}.

(** Modelled from the spec: the constant [OperationTypeAdd], declared in a
    file of the package that is not part of the sources at hand; the spec
    names the operation kinds add, replace and remove. *)
Definition OperationTypeAdd : string := "add".

(** ** The decoded pod as a store *)

(** The two Go maps reachable from the decoded pod.  The locals
    [annotations] and [labels] of [MutatePodIfCached] are copies of the map
    references [pod.ObjectMeta.Annotations] and [pod.ObjectMeta.Labels], so
    each names the same map as the pod's field. *)
Inductive mapRef : Type :=
| podAnnotations
| podLabels.

#[export] Instance mapRef_eq_dec : EqDecision mapRef.
Proof. solve_decision. Defined.

(** The map a reference denotes in a pod. *)
Definition deref (pod : corev1.Pod) (r : mapRef) : option (gmap string string) :=
  match r with
  | podAnnotations => metav1.Annotations (corev1.ObjectMeta pod)
  | podLabels => metav1.Labels (corev1.ObjectMeta pod)
  end.

(** The pod after the map behind a reference has changed. *)
Definition setref (pod : corev1.Pod) (r : mapRef) (m : option (gmap string string))
  : corev1.Pod :=
  let meta := corev1.ObjectMeta pod in
  {| corev1.ObjectMeta :=
       match r with
       | podAnnotations =>
           {| metav1.Name := metav1.Name meta;
              metav1.Annotations := m;
              metav1.Labels := metav1.Labels meta |}
       | podLabels =>
           {| metav1.Name := metav1.Name meta;
              metav1.Annotations := metav1.Annotations meta;
              metav1.Labels := m |}
       end;
     corev1.Spec := corev1.Spec pod |}.

(** Computations over the decoded pod: the pod after the step, and the
    value returned or the panic raised. *)
Definition Exec (A : Type) : Type := corev1.Pod -> outcome A * corev1.Pod.

#[export] Instance Exec_ret : MRet Exec := fun A a pod => (Returned a, pod).
#[export] Instance Exec_bind : MBind Exec := fun A B f m pod =>
  match m pod with
  | (Returned a, pod') => f a pod'
  | (Panicked msg, pod') => (Panicked msg, pod')
  end.

(** The current value of the local [pod]. *)
Definition readPod : Exec corev1.Pod := fun pod => (Returned pod, pod).

(** A call that does not touch the pod. *)
Definition call {A : Type} (o : outcome A) : Exec A := fun pod => (o, pod).

(** [v, exists := r[k]] through a reference. *)
Definition readKey (r : mapRef) (k : string) : Exec (option string) :=
  fun pod => (Returned (mapIndex (deref pod r) k), pod).

(** [r[k] = v] through a reference: the pod's own map changes. *)
Definition writeKey (r : mapRef) (k v : string) : Exec unit :=
  fun pod =>
    match mapAssign (deref pod r) k v with
    | Returned m => (Returned tt, setref pod r m)
    | Panicked msg => (Panicked msg, pod)
    end.

(** ** Patch operations *)

(** The dynamic values the package stores in [patchOperation.Value]: nothing,
    a container slice, or one of the pod's maps (held by reference). *)
Inductive patchValue : Type :=
| noValue
| containersValue (cs : list corev1.Container)
| mapValue (r : mapRef).

(** Modelled from the spec: the struct [patchOperation], declared in a file
    of the package that is not part of the sources at hand; the spec gives
    it an operation kind, a JSON-pointer path and an optional value. *)
Record patchOperation : Type := {
  Op : string;
  Path : string;
  Value : patchValue
}.

(** What a patch value holds once the call is over, read in the final pod. *)
Inductive patchContent : Type :=
| contentNone
| contentContainers (cs : list corev1.Container)
| contentMap (m : option (gmap string string)).

Definition content (pod : corev1.Pod) (v : patchValue) : patchContent :=
  match v with
  | noValue => contentNone
  | containersValue cs => contentContainers cs
  | mapValue r => contentMap (deref pod r)
  end.

(** ** Package [server]: the eligibility filter *)

(** The loop of [isTFXPod]: append every container named [main]. *)
Definition collectMain (containers : list corev1.Container) : list corev1.Container :=
  fold_left
    (fun mainContainers c =>
       if negb (String.eqb (corev1.Name c) "") && String.eqb (corev1.Name c) "main"
       then mainContainers ++ [c]
       else mainContainers)
    containers [].

(** [isTFXPod(containers)]. *)
Definition isTFXPod (containers : option (list corev1.Container)) : outcome bool :=
  let mainContainers := collectMain (elems containers) in
  if negb (length mainContainers =? 1)%nat then mret false
  else
    mainContainer ← sliceIndex mainContainers 0;
    let command := corev1.Command mainContainer in
    if negb (length command =? 0)%nat
    then
      last ← sliceIndex command (Z.of_nat (length command) - 1);
      mret (HasSuffix last TFXPodSuffix)
    else mret false.

(** [isKFPArgoPod(annotations, podName)]. *)
Definition isKFPArgoPod (annotations : option (gmap string string)) (podName : string)
  : bool :=
  match mapIndex annotations ArgoWorkflowNodeName with
  | None => false
  | Some _ => existsb (fun k => Contains k KFPAnnotation) (mapKeys annotations)
  end.

(** [isValidPod(pod)]. *)
Definition isValidPod (pod : corev1.Pod) : outcome bool :=
  let annotations := metav1.Annotations (corev1.ObjectMeta pod) in
  if isNil annotations || (mapLen annotations =? 0)%nat then mret false
  else if negb (isKFPArgoPod annotations (metav1.Name (corev1.ObjectMeta pod)))
  then mret false
  else
    let containers := corev1.Containers (corev1.Spec pod) in
    tfx ← (if negb (isNil containers) && negb (length (elems containers) =? 0)%nat
           then isTFXPod containers
           else mret false);
    if tfx : bool then mret false else mret true.

(** ** Package [server]: the cache key *)

(** [generateCacheKeyFromTemplate(template)]: the key and a nil error, or
    the empty string and the error. *)
Definition generateCacheKeyFromTemplate `{GoLibraries} (template : string)
  : string * option error :=
  let b := list_byte_of_string template in
  match json_Unmarshal b with
  | fail err => ("", Some err)
  | ok templateMap =>
      let templateMap :=
        match mapIndex templateMap ArchiveLocationKey with
        | Some _ => mapDelete templateMap ArchiveLocationKey
        | None => templateMap
        end in
      match json_Marshal templateMap with
      | fail err => ("", Some err)
      | ok b =>
          let md := sha256.Sum b in
          let executionHashKey := EncodeToString md in
          (executionHashKey, None)
      end
  end.

(** ** Package [server]: the admission decision *)

(** The placeholder container of a cache hit. *)
Definition dummyContainer : corev1.Container :=
  {| corev1.Name := "dummy"; corev1.Image := "alpine"; corev1.Command := ["true"] |}.

(** The statements of [MutatePodIfCached] that follow the decoding of the
    pod (from the call of [isValidPod] to the final [return]), run on the
    decoded pod.  The result is the pair [(patches, err)] the function
    returns. *)
Definition mutateDecodedPod `{GoLibraries} (clientMgr : ClientManagerInterface)
  : Exec (list patchOperation * option error) :=
  pod ← readPod;
  valid ← call (isValidPod pod);
  if negb valid then mret ([], None)
  else
    let patches : list patchOperation := [] in
    let annotations := podAnnotations in
    let labels := podLabels in
    found ← readKey annotations ArgoWorkflowTemplate;
    match found with
    | None => mret (patches, None)
    | Some template =>
        match generateCacheKeyFromTemplate template with
        | (_, Some err) => mret (patches, None)
        | (executionHashKey, None) =>
            writeKey annotations ExecutionKey executionHashKey;;
            writeKey labels CacheIDLabelKey "";;
            let '(cachedExecution, err) :=
              storage.GetExecutionCache (CacheStore clientMgr) executionHashKey in
            patches ←
              match cachedExecution with
              | Some cached =>
                  writeKey annotations ArgoWorkflowOutputs
                    (model.ExecutionOutput cached);;
                  writeKey labels CacheIDLabelKey (FormatInt (model.ID cached));;
                  let dummyContainers := [dummyContainer] in
                  let patches :=
                    patches ++ [ {| Op := "replace";
                                    Path := "/spec/containers";
                                    Value := containersValue dummyContainers |} ] in
                  pod ← readPod;
                  let initContainers := corev1.InitContainers (corev1.Spec pod) in
                  if negb (isNil initContainers)
                     || negb (length (elems initContainers) =? 0)%nat
                  then mret (patches ++ [ {| Op := "remove";
                                             Path := "/spec/initContainers";
                                             Value := noValue |} ])
                  else mret patches
              | None => mret patches
              end;
            let patches :=
              patches ++ [ {| Op := OperationTypeAdd;
                              Path := AnnotationPath;
                              Value := mapValue annotations |} ] in
            let patches :=
              patches ++ [ {| Op := OperationTypeAdd;
                              Path := LabelPath;
                              Value := mapValue labels |} ] in
            mret (patches, None)
        end
    end.

(** [MutatePodIfCached(req, clientMgr)]: what the call returns or the panic
    it raises, and the local [pod] at that point when it was decoded. *)
Definition MutatePodIfCached `{GoLibraries} (req : v1beta1.AdmissionRequest)
    (clientMgr : ClientManagerInterface)
  : outcome (list patchOperation * option error) * option corev1.Pod :=
  if bool_decide (v1beta1.Resource req <> podResource)
  then (Returned ([], None), None)
  else
    let raw := v1beta1.Raw req in
    match universalDeserializer_Decode raw with
    | fail err =>
        (Returned ([], Some ("could not deserialize pod object: " +:+ err)), None)
    | ok pod =>
        let '(result, pod) := mutateDecodedPod clientMgr pod in
        (result, Some pod)
    end.

(** ** A concrete environment

    Requests, a decoder, a JSON codec and cache stores on which the
    functions above evaluate.  The codec keeps the value of every member
    of a template as raw JSON text and knows the templates listed here. *)

(** JSON text, written with an apostrophe where JSON has a double quote. *)
Fixpoint jsonText (s : string) : string :=
  match s with
  | EmptyString => EmptyString
  | String c s' =>
      String (if Ascii.eqb c "'"%char then "034"%char else c) (jsonText s')
  end.

Definition templateRun123 : string :=
  jsonText "{'container':{'image':'busybox'},'archiveLocation':{'key':'run-123'}}".

Definition templateRun456 : string :=
  jsonText "{'container':{'image':'busybox'},'archiveLocation':{'key':'run-456'}}".

Definition templateBare : string :=
  jsonText "{'container':{'image':'busybox'}}".

Definition templateAlpine : string :=
  jsonText "{'container':{'image':'alpine'},'archiveLocation':{'key':'run-123'}}".

(** Decoding of the templates above, of [{}] and of [null]; any other text
    is rejected. *)
Definition exampleUnmarshal (b : list byte) : goresult (option (gmap string string)) :=
  let text := string_of_list_byte b in
  if String.eqb text templateRun123 then
    ok (Some {[ "container" := jsonText "{'image':'busybox'}";
                "archiveLocation" := jsonText "{'key':'run-123'}" ]})
  else if String.eqb text templateRun456 then
    ok (Some {[ "container" := jsonText "{'image':'busybox'}";
                "archiveLocation" := jsonText "{'key':'run-456'}" ]})
  else if String.eqb text templateBare then
    ok (Some {[ "container" := jsonText "{'image':'busybox'}" ]})
  else if String.eqb text templateAlpine then
    ok (Some {[ "container" := jsonText "{'image':'alpine'}";
                "archiveLocation" := jsonText "{'key':'run-123'}" ]})
  else if String.eqb text "{}" then ok (Some ∅)
  else if String.eqb text "null" then ok None
  else fail "invalid character looking for beginning of value".

Fixpoint joinComma (parts : list string) : string :=
  match parts with
  | [] => ""
  | [part] => part
  | part :: rest => part +:+ "," +:+ joinComma rest
  end.

(** The order of members in an encoded object: by key. *)
Definition memberLe (x y : string * string) : Prop := String.leb x.1 y.1 = true.

#[export] Instance memberLe_dec : RelDecision memberLe.
Proof. intros x y. unfold memberLe. apply _. Defined.

(** Encoding: [null] for the nil map, else the members in key order. *)
Definition exampleMarshal (m : option (gmap string string)) : goresult (list byte) :=
  match m with
  | None => ok (list_byte_of_string "null")
  | Some g =>
      let members :=
        merge_sort memberLe (map_to_list g) in
      ok (list_byte_of_string
            ("{" +:+ joinComma (map (fun kv : string * string =>
                                       jsonText "'" +:+ kv.1 +:+ jsonText "':" +:+ kv.2)
                                    members)
                 +:+ "}"))
  end.

(** The annotations of a workflow step of a pipeline run. *)
Definition exampleAnnotations : gmap string string :=
  {[ "workflows.argoproj.io/node-name" := "n1";
     "pipelines.kubeflow.org/x" := "y";
     "workflows.argoproj.io/template" := templateRun123 ]}.

Definition stepPod (annotations labels : option (gmap string string))
    (initContainers containers : option (list corev1.Container)) : corev1.Pod :=
  {| corev1.ObjectMeta :=
       {| metav1.Name := "step-1";
          metav1.Annotations := annotations;
          metav1.Labels := labels |};
     corev1.Spec :=
       {| corev1.InitContainers := initContainers;
          corev1.Containers := containers |} |}.

Definition mainContainer : corev1.Container :=
  {| corev1.Name := "main"; corev1.Image := "busybox";
     corev1.Command := ["echo"; "hi"] |}.

(** A sidecar, a TFX entrypoint and a [main] container without a command. *)
Definition waitContainer : corev1.Container :=
  {| corev1.Name := "wait"; corev1.Image := "argoexec";
     corev1.Command := ["argoexec"; "wait"] |}.

Definition tfxContainer : corev1.Container :=
  {| corev1.Name := "main"; corev1.Image := "tensorflow/tfx";
     corev1.Command :=
       ["python"; "/tfx-src/tfx/orchestration/kubeflow/container_entrypoint.py"] |}.

Definition idleContainer : corev1.Container :=
  {| corev1.Name := "main"; corev1.Image := "busybox"; corev1.Command := [] |}.

Definition examplePod (labels : option (gmap string string))
    (initContainers : option (list corev1.Container)) : corev1.Pod :=
  stepPod (Some exampleAnnotations) labels initContainers (Some [mainContainer]).

(** The metadata of the request bodies below, up to the labels. *)
Definition bodyMetadata : string :=
  jsonText "'name':'step-1','annotations':{'workflows.argoproj.io/node-name':'n1',"
  +:+ jsonText "'pipelines.kubeflow.org/x':'y','workflows.argoproj.io/template':"
  +:+ jsonText "'{\'container\':{\'image\':\'busybox\'},"
  +:+ jsonText "\'archiveLocation\':{\'key\':\'run-123\'}}'}".

Definition bodyContainers : string :=
  jsonText "'containers':[{'name':'main','image':'busybox','command':['echo','hi']}]".

(** A step with labels and no init containers. *)
Definition bodyLabelled : string :=
  jsonText "{'apiVersion':'v1','kind':'Pod','metadata':{" +:+ bodyMetadata +:+ jsonText ",'labels':{'app':'kfp'}},"
  +:+ jsonText "'spec':{" +:+ bodyContainers +:+ "}}".

(** The same step without a [labels] member. *)
Definition bodyNoLabels : string :=
  jsonText "{'apiVersion':'v1','kind':'Pod','metadata':{" +:+ bodyMetadata +:+ jsonText "},"
  +:+ jsonText "'spec':{" +:+ bodyContainers +:+ "}}".

(** The labelled step with an [initContainers] member that is an empty array. *)
Definition bodyEmptyInit : string :=
  jsonText "{'apiVersion':'v1','kind':'Pod','metadata':{" +:+ bodyMetadata +:+ jsonText ",'labels':{'app':'kfp'}},"
  +:+ jsonText "'spec':{'initContainers':[]," +:+ bodyContainers +:+ "}}".

(** The labelled step with one init container. *)
Definition bodyOneInit : string :=
  jsonText "{'apiVersion':'v1','kind':'Pod','metadata':{" +:+ bodyMetadata +:+ jsonText ",'labels':{'app':'kfp'}},"
  +:+ jsonText "'spec':{'initContainers':[{'name':'init','image':'busybox'}],"
  +:+ bodyContainers +:+ "}}".

Definition exampleLabels : gmap string string := {[ "app" := "kfp" ]}.

(** Decoding of the bodies above: a JSON member that is absent leaves the
    field nil, an empty array gives an empty slice that is not nil. *)
Definition exampleDecode (raw : list byte) : goresult corev1.Pod :=
  let text := string_of_list_byte raw in
  if String.eqb text bodyLabelled then ok (examplePod (Some exampleLabels) None)
  else if String.eqb text bodyNoLabels then ok (examplePod None None)
  else if String.eqb text bodyEmptyInit then ok (examplePod (Some exampleLabels) (Some []))
  else if String.eqb text bodyOneInit then
    ok (examplePod (Some exampleLabels)
          (Some [ {| corev1.Name := "init";
                     corev1.Image := "busybox";
                     corev1.Command := [] |} ]))
  else fail "couldn't get version/kind; json parse error".

Definition exampleLibraries : GoLibraries :=
  {| JSONValue := string;
     json_Unmarshal := exampleUnmarshal;
     json_Marshal := exampleMarshal;
     universalDeserializer_Decode := exampleDecode |}.

Definition podRequest (body : string) : v1beta1.AdmissionRequest :=
  {| v1beta1.Resource := podResource;
     v1beta1.Raw := list_byte_of_string body |}.

Definition exampleRecord : model.ExecutionCache :=
  {| model.ID := 42; model.ExecutionOutput := jsonText "{'artifacts':[]}" |}.

(** A client manager whose store answers every lookup the same way. *)
Definition clientManager (answer : option model.ExecutionCache * option error)
  : ClientManagerInterface :=
  {| CacheStore := {| storage.GetExecutionCache := fun _ => answer |} |}.

Definition missManager : ClientManagerInterface := clientManager (None, None).
Definition hitManager : ClientManagerInterface :=
  clientManager (Some exampleRecord, None).
Definition errorManager : ClientManagerInterface :=
  clientManager (None, Some "redis: connection refused").
Definition hitErrorManager : ClientManagerInterface :=
  clientManager (Some exampleRecord, Some "redis: connection refused").

(** The cache key of the example templates with a busybox container: the
    SHA-256 digest of [{"container":{"image":"busybox"}}]. *)
Definition busyboxKey : string :=
  "cdb8b3bf442cb321c3e1298eb36d2dcd2785c82e6bee7face5ce652876a8020a".

(** ** Vocabulary of the properties *)

(** [substr] occurs in [s]; [suffix] ends [s]. *)
Definition isSubstring (substr s : string) : Prop :=
  exists before after, s = before +:+ substr +:+ after.

Definition isSuffix (suffix s : string) : Prop :=
  exists before, s = before +:+ suffix.

(** The pod has an annotation with this key. *)
Definition hasAnnotation (pod : corev1.Pod) (k : string) : Prop :=
  is_Some (mapIndex (metav1.Annotations (corev1.ObjectMeta pod)) k).

(** The pod carries the workflow-node annotation and an annotation whose
    key contains the pipelines marker. *)
Definition kfpArgoAnnotated (pod : corev1.Pod) : Prop :=
  hasAnnotation pod ArgoWorkflowNodeName
  /\ exists k, hasAnnotation pod k /\ isSubstring KFPAnnotation k.

(** The containers of the pod that are named [main], in order. *)
Definition mainContainersOf (pod : corev1.Pod) : list corev1.Container :=
  filter (fun c => corev1.Name c = "main") (elems (corev1.Containers (corev1.Spec pod))).

(** The pod passes the eligibility filter. *)
Definition eligible (pod : corev1.Pod) : Prop := isValidPod pod = Returned true.

(** Two decoded templates agree on every member other than [k]. *)
Definition differOnlyAt {V : Type} (k : string) (m1 m2 : option (gmap string V)) : Prop :=
  match m1, m2 with
  | Some g1, Some g2 => forall k', k' <> k -> g1 !! k' = g2 !! k'
  | None, None => True
  | _, _ => False
  end.


(** The patch operations of a list that target a path. *)
Definition opsAt (path : string) (patches : list patchOperation) : list patchOperation :=
  filter (fun p => Path p = path) patches.

(** What [MutatePodIfCached] returned or raised, and the local [pod] then. *)
Definition resultOf {A B : Type} (run : A * B) : A := fst run.
Definition podAfter {A B : Type} (run : A * B) : B := snd run.


(** The four patch operations [MutatePodIfCached] can emit. *)
Definition replaceContainers : patchOperation :=
  {| Op := "replace"; Path := "/spec/containers";
     Value := containersValue [dummyContainer] |}.

Definition removeInitContainers : patchOperation :=
  {| Op := "remove"; Path := "/spec/initContainers"; Value := noValue |}.

Definition addAnnotations : patchOperation :=
  {| Op := "add"; Path := "/metadata/annotations"; Value := mapValue podAnnotations |}.

Definition addLabels : patchOperation :=
  {| Op := "add"; Path := "/metadata/labels"; Value := mapValue podLabels |}.

(** A pod with other annotation and label maps. *)
Definition withMaps (pod : corev1.Pod) (annotations labels : option (gmap string string))
  : corev1.Pod :=
  {| corev1.ObjectMeta :=
       {| metav1.Name := metav1.Name (corev1.ObjectMeta pod);
          metav1.Annotations := annotations;
          metav1.Labels := labels |};
     corev1.Spec := corev1.Spec pod |}.

(** The patches of a decision that reached the cache lookup, and the
    annotation and label maps the pod has afterwards. *)
Definition decisionPatches (pod : corev1.Pod) (cached : option model.ExecutionCache)
  : list patchOperation :=
  match cached with
  | Some _ =>
      replaceContainers
        :: (if isNil (corev1.InitContainers (corev1.Spec pod)) then []
            else [removeInitContainers])
  | None => []
  end ++ [addAnnotations; addLabels].

Definition stampedAnnotations (a : gmap string string) (key : string)
    (cached : option model.ExecutionCache) : gmap string string :=
  match cached with
  | Some c => <[ArgoWorkflowOutputs:=model.ExecutionOutput c]> (<[ExecutionKey:=key]> a)
  | None => <[ExecutionKey:=key]> a
  end.

Definition stampedLabels (l : gmap string string)
    (cached : option model.ExecutionCache) : gmap string string :=
  match cached with
  | Some c => <[CacheIDLabelKey:=FormatInt (model.ID c)]> (<[CacheIDLabelKey:=""]> l)
  | None => <[CacheIDLabelKey:=""]> l
  end.

(** ** Package [main]: [backend/execution_cache/src/main.go] *)

Module main.

Definition DefaultRedisHost : string := "localhost".
Definition DefaultRedisPort : string := "6379".

(** [os.Getenv(key)] in a process environment: the value of the variable,
    the empty string when it is not set. *)
Definition os_Getenv (environ : gmap string string) (key : string) : string :=
  match environ !! key with
  | Some value => value
  | None => ""
  end.

(** [getEnv(key, defaultValue)]. *)
Definition getEnv (environ : gmap string string) (key defaultValue : string) : string :=
  let value := os_Getenv environ key in
  if String.eqb value "" then defaultValue else value.

End main.

(** ** A second admission of a pod

    The labelled step as it is once the patches of a cache miss are
    applied, and a decoder that knows its body as well. *)

Definition bodyStamped : string :=
  jsonText "{'apiVersion':'v1','kind':'Pod','metadata':{'name':'step-1','annotations':{"
  +:+ jsonText "'workflows.argoproj.io/node-name':'n1','pipelines.kubeflow.org/x':'y',"
  +:+ jsonText "'workflows.argoproj.io/template':"
  +:+ jsonText "'{\'container\':{\'image\':\'busybox\'},"
  +:+ jsonText "\'archiveLocation\':{\'key\':\'run-123\'}}',"
  +:+ jsonText "'pipelines.kubeflow.org/execution_cache_key':'"
  +:+ busyboxKey
  +:+ jsonText "'},'labels':{'app':'kfp','pipelines.kubeflow.org/cache_id':''}},"
  +:+ jsonText "'spec':{" +:+ bodyContainers +:+ "}}".

Definition stampedPod : corev1.Pod :=
  stepPod (Some (<[ExecutionKey:=busyboxKey]> exampleAnnotations))
          (Some (<[CacheIDLabelKey:=""]> exampleLabels))
          None (Some [mainContainer]).

Definition readmissionDecode (raw : list byte) : goresult corev1.Pod :=
  if String.eqb (string_of_list_byte raw) bodyStamped then ok stampedPod
  else exampleDecode raw.

Definition readmissionLibraries : GoLibraries :=
  {| JSONValue := string;
     json_Unmarshal := exampleUnmarshal;
     json_Marshal := exampleMarshal;
     universalDeserializer_Decode := readmissionDecode |}.

(** A [main] container with the TFX entrypoint before its last token. *)
Definition verboseContainer : corev1.Container :=
  {| corev1.Name := "main"; corev1.Image := "tensorflow/tfx";
     corev1.Command :=
       ["/tfx-src/tfx/orchestration/kubeflow/container_entrypoint.py"; "--verbose"] |}.

(** The characters of a string. *)
Fixpoint chars (s : string) : list ascii :=
  match s with
  | EmptyString => []
  | String c s' => c :: chars s'
  end.

(** * Properties *)

(** ** Strings *)

Lemma HasPrefix_spec (s prefix : string) :
  HasPrefix s prefix = true <-> exists rest, s = prefix +:+ rest.
Proof.
  revert s. induction prefix as [|p prefix IH]; intros s; simpl.
  - split; [intros _; by exists s | done].
  - destruct s as [|c s]; simpl.
    + split; [done | intros [rest H]; discriminate].
    + rewrite andb_true_iff, Ascii.eqb_eq, IH. split.
      * intros [-> [rest ->]]. by exists rest.
      * intros [rest H]. injection H as -> ->. eauto.
Qed.

Lemma Contains_spec (s substr : string) :
  Contains s substr = true <-> exists before after, s = before +:+ substr +:+ after.
Proof.
  induction s as [|c s IH]; simpl; rewrite orb_true_iff, HasPrefix_spec.
  - split.
    + intros [[rest H] | H]; [|done]. by exists "", rest.
    + intros ([|b before] & after & H); [left; by exists after | discriminate].
  - rewrite IH. split.
    + intros [[rest H] | (before & after & ->)].
      * by exists "", rest.
      * by exists (String c before), after.
    + intros ([|b before] & after & H).
      * left. by exists after.
      * right. injection H as -> ->. eauto.
Qed.

Lemma substring_whole (s : string) : substring 0 (String.length s) s = s.
Proof. induction s as [|c s IH]; simpl; [done | by rewrite IH]. Qed.

Lemma substring_app_r (before s : string) :
  substring (String.length before) (String.length s) (before +:+ s) = s.
Proof. induction before as [|c before IH]; simpl; [apply substring_whole | done]. Qed.

Lemma length_app_string (s1 s2 : string) :
  String.length (s1 +:+ s2) = (String.length s1 + String.length s2)%nat.
Proof. induction s1 as [|c s1 IH]; simpl; [done | by rewrite IH]. Qed.

Lemma substring_split (n : nat) (s : string) :
  (n <= String.length s)%nat ->
  s = substring 0 n s +:+ substring n (String.length s - n) s.
Proof.
  revert s. induction n as [|n IH]; intros s Hn.
  - simpl. rewrite Nat.sub_0_r, substring_whole. by destruct s.
  - destruct s as [|c s]; simpl in *; [lia|].
    change (String c s =
            String c (substring 0 n s +:+ substring n (String.length s - n) s)).
    f_equal. apply IH. lia.
Qed.

Lemma HasSuffix_spec (s suffix : string) :
  HasSuffix s suffix = true <-> exists before, s = before +:+ suffix.
Proof.
  unfold HasSuffix. rewrite andb_true_iff, Nat.leb_le, String.eqb_eq. split.
  - intros [Hlen Hsub].
    exists (substring 0 (String.length s - String.length suffix) s).
    pose proof (substring_split (String.length s - String.length suffix) s) as H.
    replace (String.length s - (String.length s - String.length suffix))%nat
      with (String.length suffix) in H by lia.
    rewrite Hsub in H. apply H. lia.
  - intros [before ->]. rewrite length_app_string. split; [lia|].
    replace (String.length before + String.length suffix - String.length suffix)%nat
      with (String.length before) by lia.
    apply substring_app_r.
Qed.

(** [strconv.FormatInt] on a few numbers. *)
Example FormatInt_examples :
  FormatInt 42 = "42" /\ FormatInt 0 = "0" /\ FormatInt (-7) = "-7"
  /\ FormatInt 9223372036854775807 = "9223372036854775807".
Proof. repeat split. Qed.

(** ** Hexadecimal encoding and SHA-256 *)



(** The digests of the empty message, of [abc] and of a two-block message. *)
Example sha256_vectors :
  EncodeToString (sha256.Sum []) =
    "e3b0c44298fc1c149afbf4c8996fb92427ae41e4649b934ca495991b7852b855"
  /\ EncodeToString (sha256.Sum (list_byte_of_string "abc")) =
    "ba7816bf8f01cfea414140de5dae2223b00361a396177a9cb410ff61f20015ad"
  /\ EncodeToString (sha256.Sum (list_byte_of_string
       "abcdbcdecdefdefgefghfghighijhijkijkljklmklmnlmnomnopnopq")) =
    "248d6a61d20638b8e5c026930c3e6039a33ce45964ff2167f6ecedd419db06c1".
Proof. repeat split; vm_compute; reflexivity. Qed.

(** ** The eligibility filter *)

Lemma collectMain_filter (containers : list corev1.Container) :
  collectMain containers = filter (fun c => corev1.Name c = "main") containers.
Proof.
  unfold collectMain.
  cut (forall acc,
         fold_left
           (fun mainContainers c =>
              if negb (String.eqb (corev1.Name c) "") && String.eqb (corev1.Name c) "main"
              then mainContainers ++ [c] else mainContainers)
           containers acc
         = acc ++ filter (fun c => corev1.Name c = "main") containers).
  { intros H. by rewrite H. }
  induction containers as [|c containers IH]; intros acc; simpl.
  - by rewrite app_nil_r.
  - rewrite IH, filter_cons.
    destruct (String.eqb_spec (corev1.Name c) "main") as [Hmain|Hmain].
    + rewrite Hmain at 1. simpl. rewrite decide_True by done.
      by rewrite <- app_assoc.
    + rewrite andb_false_r, decide_False by done. done.
Qed.

(** [isTFXPod] always returns: both index expressions are in range. *)
Lemma isTFXPod_total (containers : option (list corev1.Container)) :
  exists tfx, isTFXPod containers = Returned tfx.
Proof.
  unfold isTFXPod.
  destruct (collectMain (elems containers)) as [|c [|c' rest]]; simpl; eauto.
  destruct (corev1.Command c) as [|tok command] eqn:Hcommand; simpl; eauto.
  unfold sliceIndex.
  replace (Z.of_nat (S (length command)) - 1)%Z with (Z.of_nat (length command)) by lia.
  destruct (Z.ltb_spec (Z.of_nat (length command)) 0); [lia|].
  rewrite Nat2Z.id.
  destruct (lookup_lt_is_Some_2 (tok :: command) (length command)) as [last Hlast];
    [simpl; lia|].
  rewrite Hlast. simpl. eauto.
Qed.

(** What [isTFXPod] computes: there is one container named [main], its
    command is not empty, and the last token has the TFX suffix. *)
Lemma isTFXPod_spec (containers : option (list corev1.Container)) :
  isTFXPod containers = Returned true <->
  exists c command last,
    filter (fun c => corev1.Name c = "main") (elems containers) = [c]
    /\ corev1.Command c = command ++ [last]
    /\ isSuffix TFXPodSuffix last.
Proof.
  unfold isTFXPod. rewrite collectMain_filter.
  destruct (filter _ (elems containers)) as [|c [|c' rest]]; simpl.
  - split; [done | intros (? & ? & ? & ? & _); done].
  - destruct (corev1.Command c) as [|tok command] eqn:Hcommand; simpl.
    + split; [done|]. intros (c' & cmd & last & [= <-] & Hcmd & _).
      rewrite Hcommand in Hcmd. by destruct cmd.
    + unfold sliceIndex.
      replace (Z.of_nat (S (length command)) - 1)%Z
        with (Z.of_nat (length command)) by lia.
      destruct (Z.ltb_spec (Z.of_nat (length command)) 0); [lia|].
      rewrite Nat2Z.id.
      destruct (exists_last (l := tok :: command)) as (cmd & last & Hsplit); [done|].
      rewrite Hsplit.
      assert (Hlen : length command = length cmd).
      { apply (f_equal length) in Hsplit. rewrite length_app in Hsplit.
        simpl in Hsplit. lia. }
      rewrite Hlen, list_lookup_middle by done. simpl. split.
      * intros [= Hsuffix]. exists c, cmd, last.
        split_and!; [done | congruence | by apply HasSuffix_spec].
      * intros (c' & cmd' & last' & [= <-] & Hcmd & Hsuffix).
        rewrite Hcommand, Hsplit in Hcmd.
        apply app_inj_tail in Hcmd as [_ ->].
        apply HasSuffix_spec in Hsuffix. by rewrite Hsuffix.
  - split; [done | intros (? & ? & ? & ? & _); done].
Qed.

Lemma existsb_Contains (keys : list string) :
  existsb (fun k => Contains k KFPAnnotation) keys = true <->
  exists k, k ∈ keys /\ isSubstring KFPAnnotation k.
Proof.
  rewrite existsb_exists. split.
  - intros (k & Hin & Hk). exists k. split; [by apply list_elem_of_In|].
    by apply Contains_spec.
  - intros (k & Hin & Hk). exists k. split; [by apply list_elem_of_In|].
    by apply Contains_spec.
Qed.

(** What [isKFPArgoPod] computes. *)
Lemma isKFPArgoPod_spec (pod : corev1.Pod) (podName : string) :
  isKFPArgoPod (metav1.Annotations (corev1.ObjectMeta pod)) podName = true
  <-> kfpArgoAnnotated pod.
Proof.
  unfold isKFPArgoPod, kfpArgoAnnotated, hasAnnotation.
  destruct (metav1.Annotations (corev1.ObjectMeta pod)) as [g|]; simpl.
  - destruct (g !! ArgoWorkflowNodeName) as [node|] eqn:Hnode.
    + rewrite existsb_Contains. split.
      * intros (k & Hin & Hk). split; [done|]. exists k. split; [|done].
        apply list_elem_of_fmap in Hin as ([k' v] & -> & Hin).
        apply elem_of_map_to_list in Hin. simpl. by rewrite Hin.
      * intros (_ & k & [v Hv] & Hk). exists k. split; [|done].
        apply list_elem_of_fmap. exists (k, v). split; [done|].
        by apply elem_of_map_to_list.
    + split; [done|]. by intros [[? ?] _].
  - split; [done|]. by intros [[? ?] _].
Qed.

(** [isValidPod] always returns. *)
Lemma isValidPod_total (pod : corev1.Pod) :
  exists valid, isValidPod pod = Returned valid.
Proof.
  unfold isValidPod.
  destruct (isNil _ || _); [eauto|].
  destruct (negb (isKFPArgoPod _ _)); [eauto|].
  destruct (negb (isNil _) && _).
  - destruct (isTFXPod_total (corev1.Containers (corev1.Spec pod))) as [tfx ->].
    destruct tfx; simpl; eauto.
  - simpl. eauto.
Qed.

(** What [isValidPod] computes. *)
Lemma isValidPod_spec (pod : corev1.Pod) :
  eligible pod <->
  mapLen (metav1.Annotations (corev1.ObjectMeta pod)) <> 0%nat
  /\ kfpArgoAnnotated pod
  /\ isTFXPod (corev1.Containers (corev1.Spec pod)) <> Returned true.
Proof.
  unfold eligible, isValidPod.
  rewrite <- (isKFPArgoPod_spec pod (metav1.Name (corev1.ObjectMeta pod))).
  destruct (metav1.Annotations (corev1.ObjectMeta pod)) as [g|] eqn:Hann; simpl.
  2:{ split; [done | by intros [? _]]. }
  destruct (Nat.eqb_spec (size g) 0) as [Hsize|Hsize]; simpl.
  { split; [done | by intros [? _]]. }
  destruct (isKFPArgoPod (Some g) _); simpl.
  2:{ split; [done | by intros (_ & ? & _)]. }
  destruct (isTFXPod_total (corev1.Containers (corev1.Spec pod))) as [tfx Htfx].
  destruct (corev1.Containers (corev1.Spec pod)) as [[|c cs]|] eqn:Hcs; simpl.
  - split; [|done]. intros _. split_and!; [done..|].
    by vm_compute.
  - rewrite Htfx. destruct tfx; simpl.
    + split; [done | by intros (_ & _ & ?)].
    + split; [|done]. intros _. split_and!; done.
  - split; [|done]. intros _. split_and!; [done..|].
    by vm_compute.
Qed.

(** ** The cache key *)

Lemma archive_removed {V : Type} (m : option (gmap string V)) (k : string) :
  match mapIndex m k with
  | Some _ => mapDelete m k
  | None => m
  end = mapDelete m k.
Proof.
  destruct m as [g|]; simpl; [|done].
  destruct (g !! k) eqn:Hk; [done|]. by rewrite delete_id.
Qed.

(** [generateCacheKeyFromTemplate] in one equation: decode, drop the
    archive location, encode, hash, print in hexadecimal. *)
Lemma generateCacheKeyFromTemplate_eq `{GoLibraries} (template : string) :
  generateCacheKeyFromTemplate template =
  match json_Unmarshal (list_byte_of_string template) with
  | fail err => ("", Some err)
  | ok templateMap =>
      match json_Marshal (mapDelete templateMap ArchiveLocationKey) with
      | fail err => ("", Some err)
      | ok b => (EncodeToString (sha256.Sum b), None)
      end
  end.
Proof.
  unfold generateCacheKeyFromTemplate.
  destruct (json_Unmarshal _) as [templateMap|err]; [|done].
  by rewrite archive_removed.
Qed.

Lemma differOnlyAt_delete {V : Type} (k : string) (m1 m2 : option (gmap string V)) :
  differOnlyAt k m1 m2 <-> mapDelete m1 k = mapDelete m2 k.
Proof.
  destruct m1 as [g1|], m2 as [g2|]; simpl; try done.
  split.
  - intros Hagree. f_equal. apply map_eq. intros k'.
    destruct (decide (k' = k)) as [->|Hne].
    + by rewrite !lookup_delete_eq.
    + rewrite !lookup_delete_ne by done. by apply Hagree.
  - intros [= Hdel] k' Hne.
    apply (f_equal (fun g => g !! k')) in Hdel.
    by rewrite !lookup_delete_ne in Hdel.
Qed.

(** ** The admission decision, path by path *)

Section decision.
Context `{GoLibraries}.
Implicit Types (pod : corev1.Pod) (clientMgr : ClientManagerInterface).

Lemma eligible_annotations pod :
  eligible pod -> exists a, metav1.Annotations (corev1.ObjectMeta pod) = Some a.
Proof.
  intros Hvalid. apply isValidPod_spec in Hvalid as [Hlen _].
  destruct (metav1.Annotations _) as [a|]; [eauto | done].
Qed.

Lemma mutateDecodedPod_ineligible clientMgr pod :
  isValidPod pod = Returned false ->
  mutateDecodedPod clientMgr pod = (Returned ([], None), pod).
Proof.
  intros Hvalid. unfold mutateDecodedPod, mbind, Exec_bind, readPod, call.
  by rewrite Hvalid.
Qed.

Lemma mutateDecodedPod_no_template clientMgr pod :
  eligible pod ->
  mapIndex (metav1.Annotations (corev1.ObjectMeta pod)) ArgoWorkflowTemplate = None ->
  mutateDecodedPod clientMgr pod = (Returned ([], None), pod).
Proof.
  intros Hvalid Htemplate.
  unfold mutateDecodedPod, mbind, Exec_bind, readPod, call, readKey.
  rewrite Hvalid. simpl. by rewrite Htemplate.
Qed.

Lemma mutateDecodedPod_bad_template clientMgr pod template key err :
  eligible pod ->
  mapIndex (metav1.Annotations (corev1.ObjectMeta pod)) ArgoWorkflowTemplate
    = Some template ->
  generateCacheKeyFromTemplate template = (key, Some err) ->
  mutateDecodedPod clientMgr pod = (Returned ([], None), pod).
Proof.
  intros Hvalid Htemplate Hkey.
  unfold mutateDecodedPod, mbind, Exec_bind, readPod, call, readKey.
  rewrite Hvalid. simpl. by rewrite Htemplate, Hkey.
Qed.

Lemma mutateDecodedPod_nil_labels clientMgr pod a template key :
  eligible pod ->
  metav1.Annotations (corev1.ObjectMeta pod) = Some a ->
  a !! ArgoWorkflowTemplate = Some template ->
  generateCacheKeyFromTemplate template = (key, None) ->
  metav1.Labels (corev1.ObjectMeta pod) = None ->
  mutateDecodedPod clientMgr pod =
    (Panicked "assignment to entry in nil map",
     withMaps pod (Some (<[ExecutionKey:=key]> a)) None).
Proof.
  intros Hvalid Hann Htemplate Hkey Hlabels.
  unfold mutateDecodedPod, mbind, Exec_bind, readPod, call, readKey, writeKey.
  rewrite Hvalid. simpl. rewrite Hann. simpl. rewrite Htemplate, Hkey. simpl.
  rewrite Hann. simpl. rewrite Hlabels. simpl. unfold withMaps, setref. simpl.
  by rewrite Hlabels.
Qed.

Lemma mutateDecodedPod_miss clientMgr pod a l template key err :
  eligible pod ->
  metav1.Annotations (corev1.ObjectMeta pod) = Some a ->
  a !! ArgoWorkflowTemplate = Some template ->
  generateCacheKeyFromTemplate template = (key, None) ->
  metav1.Labels (corev1.ObjectMeta pod) = Some l ->
  storage.GetExecutionCache (CacheStore clientMgr) key = (None, err) ->
  mutateDecodedPod clientMgr pod =
    (Returned ([addAnnotations; addLabels], None),
     withMaps pod (Some (<[ExecutionKey:=key]> a)) (Some (<[CacheIDLabelKey:=""]> l))).
Proof.
  intros Hvalid Hann Htemplate Hkey Hlabels Hlookup.
  unfold mutateDecodedPod, mbind, Exec_bind, readPod, call, readKey, writeKey.
  rewrite Hvalid. simpl. rewrite Hann. simpl. rewrite Htemplate, Hkey. simpl.
  rewrite Hann. simpl. rewrite Hlabels. simpl. by rewrite Hlookup.
Qed.

Lemma mutateDecodedPod_hit clientMgr pod a l template key cached err :
  eligible pod ->
  metav1.Annotations (corev1.ObjectMeta pod) = Some a ->
  a !! ArgoWorkflowTemplate = Some template ->
  generateCacheKeyFromTemplate template = (key, None) ->
  metav1.Labels (corev1.ObjectMeta pod) = Some l ->
  storage.GetExecutionCache (CacheStore clientMgr) key = (Some cached, err) ->
  mutateDecodedPod clientMgr pod =
    (Returned
       (replaceContainers
          :: (if isNil (corev1.InitContainers (corev1.Spec pod)) then []
              else [removeInitContainers])
          ++ [addAnnotations; addLabels], None),
     withMaps pod
       (Some (<[ArgoWorkflowOutputs:=model.ExecutionOutput cached]>
                (<[ExecutionKey:=key]> a)))
       (Some (<[CacheIDLabelKey:=FormatInt (model.ID cached)]>
                (<[CacheIDLabelKey:=""]> l)))).
Proof.
  intros Hvalid Hann Htemplate Hkey Hlabels Hlookup.
  unfold mutateDecodedPod, mbind, Exec_bind, readPod, call, readKey, writeKey.
  rewrite Hvalid. simpl. rewrite Hann. simpl. rewrite Htemplate, Hkey. simpl.
  rewrite Hann. simpl. rewrite Hlabels. simpl. rewrite Hlookup. simpl.
  destruct (corev1.InitContainers (corev1.Spec pod)) as [[|c cs]|]; done.
Qed.

Lemma mutateDecodedPod_lookup clientMgr pod a l template key cached err :
  eligible pod ->
  metav1.Annotations (corev1.ObjectMeta pod) = Some a ->
  a !! ArgoWorkflowTemplate = Some template ->
  generateCacheKeyFromTemplate template = (key, None) ->
  metav1.Labels (corev1.ObjectMeta pod) = Some l ->
  storage.GetExecutionCache (CacheStore clientMgr) key = (cached, err) ->
  mutateDecodedPod clientMgr pod =
    (Returned (decisionPatches pod cached, None),
     withMaps pod (Some (stampedAnnotations a key cached))
                  (Some (stampedLabels l cached))).
Proof.
  intros Hvalid Hann Htemplate Hkey Hlabels Hlookup.
  destruct cached as [c|].
  - by erewrite mutateDecodedPod_hit.
  - by erewrite mutateDecodedPod_miss.
Qed.

(** Every run of the statements after decoding takes one of three shapes:
    it leaves without patches and without touching the pod, it panics on
    the nil label map, or it reaches the lookup and builds the patches. *)
Lemma mutateDecodedPod_cases clientMgr pod :
  mutateDecodedPod clientMgr pod = (Returned ([], None), pod)
  \/ exists a template key,
       eligible pod
       /\ metav1.Annotations (corev1.ObjectMeta pod) = Some a
       /\ a !! ArgoWorkflowTemplate = Some template
       /\ generateCacheKeyFromTemplate template = (key, None)
       /\ ((metav1.Labels (corev1.ObjectMeta pod) = None
            /\ mutateDecodedPod clientMgr pod =
                 (Panicked "assignment to entry in nil map",
                  withMaps pod (Some (<[ExecutionKey:=key]> a)) None))
           \/ exists l cached err,
                metav1.Labels (corev1.ObjectMeta pod) = Some l
                /\ storage.GetExecutionCache (CacheStore clientMgr) key = (cached, err)
                /\ mutateDecodedPod clientMgr pod =
                     (Returned (decisionPatches pod cached, None),
                      withMaps pod (Some (stampedAnnotations a key cached))
                                   (Some (stampedLabels l cached)))).
Proof.
  destruct (isValidPod_total pod) as [[|] Hvalid].
  2:{ left. by apply mutateDecodedPod_ineligible. }
  destruct (eligible_annotations pod Hvalid) as [a Hann].
  destruct (a !! ArgoWorkflowTemplate) as [template|] eqn:Htemplate.
  2:{ left. apply mutateDecodedPod_no_template; [done|]. by rewrite Hann. }
  destruct (generateCacheKeyFromTemplate template) as [key [err|]] eqn:Hkey.
  { left. eapply mutateDecodedPod_bad_template; [done| |done]. by rewrite Hann. }
  right. exists a, template, key. split_and!; [done..|].
  destruct (metav1.Labels (corev1.ObjectMeta pod)) as [l|] eqn:Hlabels.
  - right.
    destruct (storage.GetExecutionCache (CacheStore clientMgr) key)
      as [cached err] eqn:Hlookup.
    exists l, cached, err. split_and!; [done..|].
    by eapply mutateDecodedPod_lookup.
  - left. split; [done|]. by eapply mutateDecodedPod_nil_labels.
Qed.

Lemma MutatePodIfCached_other_resource req clientMgr :
  v1beta1.Resource req <> podResource ->
  MutatePodIfCached req clientMgr = (Returned ([], None), None).
Proof. intros Hres. unfold MutatePodIfCached. by rewrite bool_decide_true. Qed.

Lemma MutatePodIfCached_decode_error req clientMgr err :
  v1beta1.Resource req = podResource ->
  universalDeserializer_Decode (v1beta1.Raw req) = fail err ->
  MutatePodIfCached req clientMgr =
    (Returned ([], Some ("could not deserialize pod object: " +:+ err)), None).
Proof.
  intros Hres Hdecode. unfold MutatePodIfCached.
  rewrite bool_decide_false by (by intros []). by rewrite Hdecode.
Qed.

Lemma MutatePodIfCached_decoded req clientMgr pod :
  v1beta1.Resource req = podResource ->
  universalDeserializer_Decode (v1beta1.Raw req) = ok pod ->
  MutatePodIfCached req clientMgr =
    ((mutateDecodedPod clientMgr pod).1, Some (mutateDecodedPod clientMgr pod).2).
Proof.
  intros Hres Hdecode. unfold MutatePodIfCached.
  rewrite bool_decide_false by (by intros []). rewrite Hdecode.
  by destruct (mutateDecodedPod clientMgr pod).
Qed.

(** A pod is decoded exactly when the resource is [pods] and the
    deserializer accepts the object. *)
Lemma MutatePodIfCached_podAfter req clientMgr pod' :
  podAfter (MutatePodIfCached req clientMgr) = Some pod' ->
  exists pod,
    v1beta1.Resource req = podResource
    /\ universalDeserializer_Decode (v1beta1.Raw req) = ok pod
    /\ pod' = (mutateDecodedPod clientMgr pod).2.
Proof.
  unfold MutatePodIfCached, podAfter.
  case_bool_decide as Hres; [done|].
  destruct (universalDeserializer_Decode _) as [pod|err] eqn:Hdecode; [|done].
  destruct (mutateDecodedPod clientMgr pod) as [result pod''] eqn:Hrun. simpl.
  intros [= <-]. exists pod. by rewrite Hrun.
Qed.

End decision.

(** ** Claims about the eligibility filter *)

(** C10.  A pod with exactly one container named [main] whose command list
    is empty is not taken for a TFX pod: the test of the last command token
    sits behind the test that the command is not empty, so [isTFXPod]
    returns on every container list and never indexes an empty command
    (an index into an empty slice would panic). *)
Theorem isTFXPod_empty_command (containers : option (list corev1.Container))
    (c : corev1.Container) :
  filter (fun c => corev1.Name c = "main") (elems containers) = [c] ->
  corev1.Command c = [] ->
  isTFXPod containers = Returned false
  /\ (forall cs, exists tfx, isTFXPod cs = Returned tfx)
  /\ (forall i, sliceIndex (corev1.Command c) i = Panicked "index out of range").
Proof.
  intros Hmain Hcommand. split_and!.
  - destruct (isTFXPod_total containers) as [[|] Htfx]; [|done].
    apply isTFXPod_spec in Htfx as (c' & command & last & Hmain' & Hcommand' & _).
    rewrite Hmain in Hmain'. injection Hmain' as <-.
    rewrite Hcommand in Hcommand'. by destruct command.
  - apply isTFXPod_total.
  - intros i. rewrite Hcommand. unfold sliceIndex.
    by destruct (i <? 0)%Z.
Qed.

Lemma isTFXPod_empty_command_witness :
  isTFXPod (Some [waitContainer; idleContainer]) = Returned false.
Proof.
  apply (isTFXPod_empty_command (Some [waitContainer; idleContainer]) idleContainer);
    reflexivity.
Defined.

(** C6.  The eligibility filter: a pod without annotations (nil or empty
    map) is not eligible; a pod with the workflow-node annotation and an
    annotation key containing the pipelines marker is eligible when no
    container is named [main], and is not eligible when exactly one
    container is named [main] and the last token of its command ends with
    the TFX entrypoint suffix. *)
Theorem isValidPod_eligibility (pod : corev1.Pod) :
  (mapLen (metav1.Annotations (corev1.ObjectMeta pod)) = 0%nat ->
   isValidPod pod = Returned false)
  /\ (kfpArgoAnnotated pod -> mainContainersOf pod = [] ->
      isValidPod pod = Returned true)
  /\ (kfpArgoAnnotated pod ->
      forall c command last,
        mainContainersOf pod = [c] ->
        corev1.Command c = command ++ [last] ->
        isSuffix TFXPodSuffix last ->
        isValidPod pod = Returned false).
Proof.
  split_and!.
  - intros Hlen. destruct (isValidPod_total pod) as [[|] Hvalid]; [|done].
    by apply isValidPod_spec in Hvalid as [? _].
  - intros Hkfp Hmain. apply isValidPod_spec. split_and!; [|done|].
    + destruct Hkfp as [[node Hnode] _]. unfold hasAnnotation in Hnode.
      destruct (metav1.Annotations (corev1.ObjectMeta pod)) as [g|]; [|done].
      simpl in *. intros Hsize. apply map_size_empty_iff in Hsize. by subst.
    + intros Htfx. apply isTFXPod_spec in Htfx as (c & _ & _ & Hc & _).
      unfold mainContainersOf in Hmain. by rewrite Hmain in Hc.
  - intros Hkfp c command last Hmain Hcommand Hsuffix.
    destruct (isValidPod_total pod) as [[|] Hvalid]; [|done].
    apply isValidPod_spec in Hvalid as (_ & _ & Htfx). exfalso. apply Htfx.
    apply isTFXPod_spec. by exists c, command, last.
Qed.

Lemma isValidPod_eligibility_witness :
  isValidPod (stepPod None None None (Some [mainContainer])) = Returned false
  /\ isValidPod (stepPod (Some ∅) None None (Some [mainContainer])) = Returned false
  /\ isValidPod (stepPod (Some exampleAnnotations) None None (Some [waitContainer]))
     = Returned true
  /\ isValidPod (stepPod (Some exampleAnnotations) None None
                   (Some [waitContainer; tfxContainer])) = Returned false.
Proof.
  assert (Hkfp : forall labels init containers,
            kfpArgoAnnotated (stepPod (Some exampleAnnotations) labels init containers)).
  { intros. split; [by eexists|].
    exists "pipelines.kubeflow.org/x". split; [by eexists|].
    by exists "", "/x". }
  split_and!.
  - by apply (isValidPod_eligibility (stepPod None None None (Some [mainContainer]))).
  - by apply (isValidPod_eligibility (stepPod (Some ∅) None None (Some [mainContainer]))).
  - apply (isValidPod_eligibility
             (stepPod (Some exampleAnnotations) None None (Some [waitContainer])));
      [apply Hkfp | reflexivity].
  - apply (proj2 (proj2 (isValidPod_eligibility
             (stepPod (Some exampleAnnotations) None None
                (Some [waitContainer; tfxContainer]))))
             (Hkfp _ _ _) tfxContainer ["python"]
             "/tfx-src/tfx/orchestration/kubeflow/container_entrypoint.py");
      [reflexivity | reflexivity | by exists "/tfx-src/"].
Defined.

(** ** Claims about the cache key *)

(** C4.  Two valid templates that differ only in the top-level
    [archiveLocation] member, one of them possibly lacking it, get the same
    result from [generateCacheKeyFromTemplate], hence the same fingerprint. *)
Theorem generateCacheKeyFromTemplate_ignores_archiveLocation `{GoLibraries}
    (t1 t2 : string) (m1 m2 : option (gmap string JSONValue)) :
  json_Unmarshal (list_byte_of_string t1) = ok m1 ->
  json_Unmarshal (list_byte_of_string t2) = ok m2 ->
  differOnlyAt ArchiveLocationKey m1 m2 ->
  generateCacheKeyFromTemplate t1 = generateCacheKeyFromTemplate t2.
Proof.
  intros Hm1 Hm2 Hdiffer.
  rewrite !generateCacheKeyFromTemplate_eq, Hm1, Hm2.
  apply differOnlyAt_delete in Hdiffer. by rewrite Hdiffer.
Qed.

Lemma generateCacheKeyFromTemplate_ignores_archiveLocation_witness :
  @generateCacheKeyFromTemplate exampleLibraries templateRun123
  = @generateCacheKeyFromTemplate exampleLibraries templateRun456
  /\ @generateCacheKeyFromTemplate exampleLibraries templateRun123
     = @generateCacheKeyFromTemplate exampleLibraries templateBare
  /\ @generateCacheKeyFromTemplate exampleLibraries templateRun123 = (busyboxKey, None).
Proof.
  split_and!.
  - apply (@generateCacheKeyFromTemplate_ignores_archiveLocation exampleLibraries
             templateRun123 templateRun456
             (Some {[ "container" := jsonText "{'image':'busybox'}";
                      "archiveLocation" := jsonText "{'key':'run-123'}" ]})
             (Some {[ "container" := jsonText "{'image':'busybox'}";
                      "archiveLocation" := jsonText "{'key':'run-456'}" ]}));
      [reflexivity | reflexivity |].
    intros k Hk. rewrite !lookup_insert. case_decide; [done|].
    by rewrite !lookup_singleton_ne.
  - apply (@generateCacheKeyFromTemplate_ignores_archiveLocation exampleLibraries
             templateRun123 templateBare
             (Some {[ "container" := jsonText "{'image':'busybox'}";
                      "archiveLocation" := jsonText "{'key':'run-123'}" ]})
             (Some {[ "container" := jsonText "{'image':'busybox'}" ]}));
      [reflexivity | reflexivity |].
    intros k Hk. rewrite lookup_insert. case_decide as Hcontainer.
    + subst k. by rewrite lookup_singleton_eq.
    + by rewrite !lookup_singleton_ne.
  - vm_compute. reflexivity.
Defined.




(** ** Claims about the admission decision *)

Section decision_claims.
Context `{GoLibraries}.
Implicit Types (req : v1beta1.AdmissionRequest) (clientMgr : ClientManagerInterface).
Implicit Types (pod : corev1.Pod).

(** The call panics exactly on an eligible pod with a template whose key
    derives and whose label map is nil. *)
Lemma MutatePodIfCached_panics_iff req clientMgr msg :
  resultOf (MutatePodIfCached req clientMgr) = Panicked msg <->
  exists pod template key,
    v1beta1.Resource req = podResource
    /\ universalDeserializer_Decode (v1beta1.Raw req) = ok pod
    /\ eligible pod
    /\ mapIndex (metav1.Annotations (corev1.ObjectMeta pod)) ArgoWorkflowTemplate
       = Some template
    /\ generateCacheKeyFromTemplate template = (key, None)
    /\ metav1.Labels (corev1.ObjectMeta pod) = None
    /\ msg = "assignment to entry in nil map".
Proof.
  unfold resultOf. split.
  - destruct (decide (v1beta1.Resource req = podResource)) as [Hres|Hres].
    2:{ by rewrite MutatePodIfCached_other_resource. }
    destruct (universalDeserializer_Decode (v1beta1.Raw req)) as [pod|err] eqn:Hdecode.
    2:{ by erewrite MutatePodIfCached_decode_error. }
    erewrite MutatePodIfCached_decoded by done. simpl.
    destruct (mutateDecodedPod_cases clientMgr pod)
      as [Hrun | (a & template & key & Hvalid & Hann & Htemplate & Hkey & Hrun)].
    { by rewrite Hrun. }
    destruct Hrun as [[Hlabels Hrun] | (l & cached & err & _ & _ & Hrun)];
      rewrite Hrun; simpl; [|done].
    intros [= <-]. exists pod, template, key. rewrite Hann. by split_and!.
  - intros (pod & template & key & Hres & Hdecode & Hvalid & Htemplate & Hkey
            & Hlabels & ->).
    destruct (eligible_annotations pod Hvalid) as [a Hann].
    rewrite Hann in Htemplate.
    erewrite MutatePodIfCached_decoded by done.
    by erewrite mutateDecodedPod_nil_labels.
Qed.

(** Apart from that panic, the only error returned is the decoding error. *)
Lemma MutatePodIfCached_error req clientMgr patches err :
  resultOf (MutatePodIfCached req clientMgr) = Returned (patches, Some err) ->
  patches = []
  /\ exists cause, universalDeserializer_Decode (v1beta1.Raw req) = fail cause.
Proof.
  unfold resultOf.
  destruct (decide (v1beta1.Resource req = podResource)) as [Hres|Hres].
  2:{ by rewrite MutatePodIfCached_other_resource. }
  destruct (universalDeserializer_Decode (v1beta1.Raw req)) as [pod|cause] eqn:Hdecode.
  2:{ erewrite MutatePodIfCached_decode_error by done. intros [= <- _]. eauto. }
  erewrite MutatePodIfCached_decoded by done. simpl.
  destruct (mutateDecodedPod_cases clientMgr pod)
    as [Hrun | (a & template & key & _ & _ & _ & _ & Hrun)].
  { by rewrite Hrun. }
  destruct Hrun as [[_ Hrun] | (l & cached & e & _ & _ & Hrun)]; by rewrite Hrun.
Qed.

(** On a cache hit the removal of the init containers is emitted exactly
    when the slice is not nil; its length plays no part. *)
Lemma remove_emitted_iff_not_nil pod cached :
  removeInitContainers ∈ decisionPatches pod (Some cached)
  <-> corev1.InitContainers (corev1.Spec pod) <> None.
Proof.
  unfold decisionPatches.
  destruct (corev1.InitContainers (corev1.Spec pod)) as [init|]; simpl.
  - split; [done|]. intros _. set_solver.
  - split; [|done]. intros Hin.
    apply elem_of_cons in Hin as [Hin|Hin]; [done|].
    apply elem_of_cons in Hin as [Hin|Hin]; [done|].
    apply elem_of_cons in Hin as [Hin|Hin]; [done|].
    by apply elem_of_nil in Hin.
Qed.

(** C7.  For an eligible pod whose fingerprint derives, the call returns
    whenever the label map is not nil, and what it returns has, on a cache
    hit, exactly one operation at the container-list path, a replace whose
    value is the one-element list holding the placeholder container, and on
    a miss no operation at the container-list or init-container-list path. *)
Theorem MutatePodIfCached_container_patches req clientMgr pod template key cached err :
  v1beta1.Resource req = podResource ->
  universalDeserializer_Decode (v1beta1.Raw req) = ok pod ->
  eligible pod ->
  mapIndex (metav1.Annotations (corev1.ObjectMeta pod)) ArgoWorkflowTemplate
    = Some template ->
  generateCacheKeyFromTemplate template = (key, None) ->
  storage.GetExecutionCache (CacheStore clientMgr) key = (cached, err) ->
  (is_Some (metav1.Labels (corev1.ObjectMeta pod)) ->
   exists patches,
     resultOf (MutatePodIfCached req clientMgr) = Returned (patches, None))
  /\ (forall patches e,
        resultOf (MutatePodIfCached req clientMgr) = Returned (patches, e) ->
        match cached with
        | Some _ =>
            opsAt "/spec/containers" patches =
              [ {| Op := "replace"; Path := "/spec/containers";
                   Value := containersValue [dummyContainer] |} ]
        | None =>
            opsAt "/spec/containers" patches = []
            /\ opsAt "/spec/initContainers" patches = []
        end).
Proof.
  intros Hres Hdecode Hvalid Htemplate Hkey Hlookup.
  destruct (eligible_annotations pod Hvalid) as [a Hann].
  rewrite Hann in Htemplate. simpl in Htemplate.
  unfold resultOf. erewrite MutatePodIfCached_decoded by done. simpl.
  destruct (metav1.Labels (corev1.ObjectMeta pod)) as [l|] eqn:Hlabels.
  - erewrite mutateDecodedPod_lookup by done. simpl. split; [eauto|].
    intros patches e [= <- _]. unfold decisionPatches.
    destruct cached as [c|];
      [destruct (isNil (corev1.InitContainers (corev1.Spec pod)))|]; done.
  - erewrite mutateDecodedPod_nil_labels by done. simpl.
    split; [by intros [? ?] | done].
Qed.

(** C3, as the code has it.  [MutatePodIfCached] leaves the name and the
    spec of the decoded pod alone, as well as every annotation other than
    the cache-key and outputs annotations and every label other than the
    cache-id label, and it leaves the whole pod alone when it returns no
    patch.  When it returns patches, the cache-key annotation and the
    cache-id label have been written into the pod's own maps, which are the
    values of the two add operations. *)
Theorem MutatePodIfCached_pod_frame req clientMgr pod result pod' :
  universalDeserializer_Decode (v1beta1.Raw req) = ok pod ->
  MutatePodIfCached req clientMgr = (result, Some pod') ->
  metav1.Name (corev1.ObjectMeta pod') = metav1.Name (corev1.ObjectMeta pod)
  /\ corev1.Spec pod' = corev1.Spec pod
  /\ (forall k, k <> ExecutionKey -> k <> ArgoWorkflowOutputs ->
        mapIndex (metav1.Annotations (corev1.ObjectMeta pod')) k
        = mapIndex (metav1.Annotations (corev1.ObjectMeta pod)) k)
  /\ (forall k, k <> CacheIDLabelKey ->
        mapIndex (metav1.Labels (corev1.ObjectMeta pod')) k
        = mapIndex (metav1.Labels (corev1.ObjectMeta pod)) k)
  /\ (forall e, result = Returned ([], e) -> pod' = pod)
  /\ (forall patches e, result = Returned (patches, e) -> patches <> [] ->
        is_Some (mapIndex (deref pod' podAnnotations) ExecutionKey)
        /\ is_Some (mapIndex (deref pod' podLabels) CacheIDLabelKey)
        /\ {| Op := OperationTypeAdd; Path := AnnotationPath;
              Value := mapValue podAnnotations |} ∈ patches
        /\ {| Op := OperationTypeAdd; Path := LabelPath;
              Value := mapValue podLabels |} ∈ patches).
Proof.
  intros Hdecode Hrun.
  assert (Hafter : podAfter (MutatePodIfCached req clientMgr) = Some pod')
    by (by rewrite Hrun).
  apply MutatePodIfCached_podAfter in Hafter as (pod0 & Hres & Hdecode' & Hpod').
  rewrite Hdecode in Hdecode'. injection Hdecode' as <-.
  erewrite MutatePodIfCached_decoded in Hrun by done.
  injection Hrun as Hresult _. clear Hdecode Hres.
  destruct (mutateDecodedPod_cases clientMgr pod)
    as [Hcase | (a & template & key & _ & Hann & _ & _ & Hcase)].
  { rewrite Hcase in Hresult, Hpod'. simpl in *. subst.
    split_and!; try done. by intros patches e [= <- _]. }
  destruct Hcase as [[Hlabels Hcase] | (l & cached & err & Hlabels & _ & Hcase)];
    rewrite Hcase in Hresult, Hpod'; simpl in *; subst result pod'; simpl.
  - rewrite Hann, Hlabels. simpl. split_and!; try done.
    intros k Hkey _. by rewrite lookup_insert_ne.
  - rewrite Hann, Hlabels. simpl. split_and!; try done.
    + intros k Hkey Houtputs. unfold stampedAnnotations.
      destruct cached; by rewrite !lookup_insert_ne.
    + intros k Hid. unfold stampedLabels.
      destruct cached; by rewrite !lookup_insert_ne.
    + intros e [= Hempty _]. unfold decisionPatches in Hempty.
      by destruct cached.
    + intros patches e [= <- _] _. split_and!.
      * unfold stampedAnnotations. destruct cached.
        -- rewrite lookup_insert_ne by done. by rewrite lookup_insert_eq.
        -- by rewrite lookup_insert_eq.
      * unfold stampedLabels. destruct cached; by rewrite lookup_insert_eq.
      * unfold decisionPatches. apply elem_of_app. right. set_solver.
      * unfold decisionPatches. apply elem_of_app. right. set_solver.
Qed.

(** C8, as the code has it.  When the cache lookup returns an error and no
    record, the request is decided as a miss: the patch list holds the two
    add operations and nothing at the container or init-container paths,
    the cache-id label is the empty string, the outputs annotation is what
    the pod already had, and the whole outcome is that of a lookup that
    returns neither a record nor an error. *)
Theorem MutatePodIfCached_lookup_error_is_miss req clientMgr pod template key l lookupErr :
  v1beta1.Resource req = podResource ->
  universalDeserializer_Decode (v1beta1.Raw req) = ok pod ->
  eligible pod ->
  mapIndex (metav1.Annotations (corev1.ObjectMeta pod)) ArgoWorkflowTemplate
    = Some template ->
  generateCacheKeyFromTemplate template = (key, None) ->
  metav1.Labels (corev1.ObjectMeta pod) = Some l ->
  storage.GetExecutionCache (CacheStore clientMgr) key = (None, Some lookupErr) ->
  exists pod',
    MutatePodIfCached req clientMgr =
      (Returned ([ {| Op := OperationTypeAdd; Path := AnnotationPath;
                      Value := mapValue podAnnotations |};
                   {| Op := OperationTypeAdd; Path := LabelPath;
                      Value := mapValue podLabels |} ], None), Some pod')
    /\ mapIndex (metav1.Labels (corev1.ObjectMeta pod')) CacheIDLabelKey = Some ""
    /\ mapIndex (metav1.Annotations (corev1.ObjectMeta pod')) ArgoWorkflowOutputs
       = mapIndex (metav1.Annotations (corev1.ObjectMeta pod)) ArgoWorkflowOutputs
    /\ MutatePodIfCached req clientMgr
       = MutatePodIfCached req (clientManager (None, None)).
Proof.
  intros Hres Hdecode Hvalid Htemplate Hkey Hlabels Hlookup.
  destruct (eligible_annotations pod Hvalid) as [a Hann].
  rewrite Hann in Htemplate. simpl in Htemplate.
  rewrite !(MutatePodIfCached_decoded _ _ pod) by done.
  rewrite (mutateDecodedPod_miss clientMgr pod a l template key (Some lookupErr))
    by done.
  rewrite (mutateDecodedPod_miss (clientManager (None, None)) pod a l template key None)
    by done.
  simpl. eexists. split_and!; [done | | | done]; simpl.
  - by rewrite lookup_insert_eq.
  - rewrite Hann. simpl. by rewrite lookup_insert_ne.
Qed.

(** C9.  A non-empty patch list ends with two add operations, at the
    annotations path and then at the labels path; nothing before them is an
    add, and whatever is before them targets the container list or the
    init-container list.  The annotations value maps the cache-key
    annotation to the fingerprint of the pod's template, the labels value
    maps the cache-id label to the empty string on a miss and to the
    decimal form of the record's ID on a hit. *)
Theorem MutatePodIfCached_patch_tail req clientMgr patches e :
  resultOf (MutatePodIfCached req clientMgr) = Returned (patches, e) ->
  patches <> [] ->
  exists pod pod' template key cached lookupErr front a' l',
    universalDeserializer_Decode (v1beta1.Raw req) = ok pod
    /\ podAfter (MutatePodIfCached req clientMgr) = Some pod'
    /\ mapIndex (metav1.Annotations (corev1.ObjectMeta pod)) ArgoWorkflowTemplate
       = Some template
    /\ generateCacheKeyFromTemplate template = (key, None)
    /\ storage.GetExecutionCache (CacheStore clientMgr) key = (cached, lookupErr)
    /\ patches =
         front ++ [ {| Op := OperationTypeAdd; Path := AnnotationPath;
                       Value := mapValue podAnnotations |};
                    {| Op := OperationTypeAdd; Path := LabelPath;
                       Value := mapValue podLabels |} ]
    /\ Forall (fun p => Op p <> OperationTypeAdd
                        /\ (Path p = "/spec/containers"
                            \/ Path p = "/spec/initContainers")) front
    /\ content pod' (mapValue podAnnotations) = contentMap (Some a')
    /\ a' !! ExecutionKey = Some key
    /\ content pod' (mapValue podLabels) = contentMap (Some l')
    /\ l' !! CacheIDLabelKey =
         Some match cached with
              | Some c => FormatInt (model.ID c)
              | None => ""
              end.
Proof.
  unfold resultOf, podAfter. intros Hresult Hnonempty.
  destruct (decide (v1beta1.Resource req = podResource)) as [Hres|Hres].
  2:{ rewrite MutatePodIfCached_other_resource in Hresult by done.
      simpl in Hresult. congruence. }
  destruct (universalDeserializer_Decode (v1beta1.Raw req)) as [pod|cause] eqn:Hdecode.
  2:{ erewrite MutatePodIfCached_decode_error in Hresult by done.
      simpl in Hresult. congruence. }
  erewrite MutatePodIfCached_decoded in Hresult |- * by done. simpl in *.
  destruct (mutateDecodedPod_cases clientMgr pod)
    as [Hcase | (a & template & key & _ & Hann & Htemplate & Hkey & Hcase)].
  { rewrite Hcase in Hresult. simpl in Hresult. congruence. }
  destruct Hcase as [[_ Hcase] | (l & cached & err & Hlabels & Hlookup & Hcase)];
    rewrite Hcase in Hresult |- *; simpl in *; [done|].
  injection Hresult as <- <-.
  exists pod, (withMaps pod (Some (stampedAnnotations a key cached))
                        (Some (stampedLabels l cached))),
    template, key, cached, err,
    match cached with
    | Some _ => replaceContainers
                  :: (if isNil (corev1.InitContainers (corev1.Spec pod)) then []
                      else [removeInitContainers])
    | None => []
    end,
    (stampedAnnotations a key cached), (stampedLabels l cached).
  rewrite Hann. split_and!; try done.
  - destruct cached; [destruct (isNil _)|]; repeat constructor; by auto.
  - unfold stampedAnnotations. destruct cached.
    + rewrite lookup_insert_ne by done. by rewrite lookup_insert_eq.
    + by rewrite lookup_insert_eq.
  - unfold stampedLabels. destruct cached; by rewrite lookup_insert_eq.
Qed.

End decision_claims.

Lemma MutatePodIfCached_container_patches_witness :
  (forall patches e,
     resultOf (@MutatePodIfCached exampleLibraries (podRequest bodyOneInit) hitManager)
       = Returned (patches, e) ->
     opsAt "/spec/containers" patches = [replaceContainers])
  /\ (forall patches e,
        resultOf (@MutatePodIfCached exampleLibraries (podRequest bodyOneInit) missManager)
          = Returned (patches, e) ->
        opsAt "/spec/containers" patches = []
        /\ opsAt "/spec/initContainers" patches = [])
  /\ exists patches,
       resultOf (@MutatePodIfCached exampleLibraries (podRequest bodyOneInit) hitManager)
         = Returned (patches, None).
Proof.
  pose proof (fun mgr cached (Hlookup : storage.GetExecutionCache (CacheStore mgr)
                                          busyboxKey = (cached, None)) =>
    @MutatePodIfCached_container_patches exampleLibraries
      (podRequest bodyOneInit) mgr
      (examplePod (Some exampleLabels)
         (Some [ {| corev1.Name := "init"; corev1.Image := "busybox";
                    corev1.Command := [] |} ]))
      templateRun123 busyboxKey cached None
      eq_refl eq_refl eq_refl eq_refl eq_refl Hlookup) as Hclaim.
  split_and!.
  - apply (proj2 (Hclaim hitManager (Some exampleRecord) eq_refl)).
  - apply (proj2 (Hclaim missManager None eq_refl)).
  - apply (proj1 (Hclaim hitManager (Some exampleRecord) eq_refl)). by eexists.
Defined.

(** C1.  The claim includes pods without labels, but there the call does
    not return: for the request whose pod is eligible, carries a template
    whose key derives and has no [labels] member, the write of the cache-id
    label into the nil label map panics. *)
Theorem MutatePodIfCached_nil_labels_panics :
  @universalDeserializer_Decode exampleLibraries (v1beta1.Raw (podRequest bodyNoLabels))
    = ok (examplePod None None)
  /\ eligible (examplePod None None)
  /\ @MutatePodIfCached exampleLibraries (podRequest bodyNoLabels) missManager
     = (Panicked "assignment to entry in nil map",
        Some (withMaps (examplePod None None)
                (Some (<[ExecutionKey:=busyboxKey]> exampleAnnotations)) None)).
Proof. split_and!; vm_compute; reflexivity. Qed.

(** C2.  The claim gives a pod with an empty init-container list no remove
    operation, but on a cache hit the request whose pod has
    [initContainers] present and empty gets one: the test is on the slice
    being nil, not on its length. *)
Theorem MutatePodIfCached_empty_initContainers_removed :
  @universalDeserializer_Decode exampleLibraries (v1beta1.Raw (podRequest bodyEmptyInit))
    = ok (examplePod (Some exampleLabels) (Some []))
  /\ length (elems (corev1.InitContainers
                      (corev1.Spec (examplePod (Some exampleLabels) (Some []))))) = 0%nat
  /\ resultOf (@MutatePodIfCached exampleLibraries (podRequest bodyEmptyInit) hitManager)
     = Returned ([ {| Op := "replace"; Path := "/spec/containers";
                      Value := containersValue [dummyContainer] |};
                   {| Op := "remove"; Path := "/spec/initContainers";
                      Value := noValue |};
                   addAnnotations; addLabels ], None).
Proof. split_and!; vm_compute; reflexivity. Qed.

(** C3 fails as stated: after the call on the labelled step the decoded pod
    has a cache-key annotation and a cache-id label it did not have. *)
Lemma MutatePodIfCached_mutates_pod :
  exists pod pod',
    @universalDeserializer_Decode exampleLibraries
      (v1beta1.Raw (podRequest bodyLabelled)) = ok pod
    /\ podAfter (@MutatePodIfCached exampleLibraries (podRequest bodyLabelled) missManager)
       = Some pod'
    /\ mapIndex (metav1.Annotations (corev1.ObjectMeta pod)) ExecutionKey = None
    /\ mapIndex (metav1.Annotations (corev1.ObjectMeta pod')) ExecutionKey
       = Some busyboxKey
    /\ mapIndex (metav1.Labels (corev1.ObjectMeta pod)) CacheIDLabelKey = None
    /\ mapIndex (metav1.Labels (corev1.ObjectMeta pod')) CacheIDLabelKey = Some ""
    /\ pod' <> pod.
Proof.
  eexists _, _. split_and!; [reflexivity | reflexivity | reflexivity..|].
  intros Heq.
  apply (f_equal (fun p => mapIndex (metav1.Labels (corev1.ObjectMeta p))
                             CacheIDLabelKey)) in Heq.
  vm_compute in Heq. discriminate.
Qed.

Lemma MutatePodIfCached_pod_frame_witness :
  exists pod',
    podAfter (@MutatePodIfCached exampleLibraries (podRequest bodyLabelled) hitManager)
      = Some pod'
    /\ corev1.Spec pod' = corev1.Spec (examplePod (Some exampleLabels) None)
    /\ mapIndex (metav1.Labels (corev1.ObjectMeta pod')) "app" = Some "kfp".
Proof.
  eexists. split; [reflexivity|].
  destruct (@MutatePodIfCached_pod_frame exampleLibraries
              (podRequest bodyLabelled) hitManager
              (examplePod (Some exampleLabels) None) _ _ eq_refl eq_refl)
    as (_ & Hspec & _ & Hlabels & _).
  split; [exact Hspec|].
  rewrite Hlabels; [reflexivity | discriminate].
Defined.

(** C8 fails as stated: a lookup that returns a record together with an
    error is decided as a hit. *)
Lemma MutatePodIfCached_record_with_error_is_hit :
  storage.GetExecutionCache (CacheStore hitErrorManager) busyboxKey
    = (Some exampleRecord, Some "redis: connection refused")
  /\ exists pod',
       @MutatePodIfCached exampleLibraries (podRequest bodyLabelled) hitErrorManager
       = (Returned ([ {| Op := "replace"; Path := "/spec/containers";
                         Value := containersValue [dummyContainer] |};
                      addAnnotations; addLabels ], None), Some pod')
       /\ mapIndex (metav1.Labels (corev1.ObjectMeta pod')) CacheIDLabelKey = Some "42"
       /\ mapIndex (metav1.Annotations (corev1.ObjectMeta pod')) ArgoWorkflowOutputs
          = Some (model.ExecutionOutput exampleRecord)
       /\ mapIndex (metav1.Annotations
                      (corev1.ObjectMeta (examplePod (Some exampleLabels) None)))
            ArgoWorkflowOutputs = None.
Proof.
  split; [reflexivity|].
  exists (withMaps (examplePod (Some exampleLabels) None)
            (Some (stampedAnnotations exampleAnnotations busyboxKey (Some exampleRecord)))
            (Some (stampedLabels exampleLabels (Some exampleRecord)))).
  split_and!; vm_compute; reflexivity.
Qed.

Lemma MutatePodIfCached_lookup_error_is_miss_witness :
  @MutatePodIfCached exampleLibraries (podRequest bodyLabelled) errorManager
  = @MutatePodIfCached exampleLibraries (podRequest bodyLabelled) missManager.
Proof.
  destruct (@MutatePodIfCached_lookup_error_is_miss exampleLibraries
              (podRequest bodyLabelled) errorManager
              (examplePod (Some exampleLabels) None) templateRun123 busyboxKey
              exampleLabels "redis: connection refused"
              eq_refl eq_refl eq_refl eq_refl eq_refl eq_refl eq_refl)
    as (pod' & _ & _ & _ & Hmiss).
  exact Hmiss.
Defined.

Lemma MutatePodIfCached_patch_tail_witness :
  exists (front : list patchOperation) (l' : gmap string string),
    [replaceContainers; removeInitContainers; addAnnotations; addLabels]
      = front ++ [addAnnotations; addLabels]
    /\ l' !! CacheIDLabelKey = Some "42".
Proof.
  destruct (@MutatePodIfCached_patch_tail exampleLibraries
              (podRequest bodyOneInit) hitManager
              [replaceContainers; removeInitContainers; addAnnotations; addLabels]
              None eq_refl ltac:(discriminate))
    as (pod & pod' & template & key & cached & lookupErr & front & a' & l'
        & _ & _ & _ & _ & Hlookup & Hpatches & _ & _ & _ & _ & Hid).
  exists front, l'. split; [exact Hpatches|].
  injection Hlookup as <- _. exact Hid.
Defined.

(** * Further properties of the package *)

(** ** More on the eligibility filter *)

Lemma kfpArgoAnnotated_nonempty (pod : corev1.Pod) :
  kfpArgoAnnotated pod ->
  mapLen (metav1.Annotations (corev1.ObjectMeta pod)) <> 0%nat.
Proof.
  intros [[node Hnode] _]. unfold hasAnnotation in Hnode.
  destruct (metav1.Annotations (corev1.ObjectMeta pod)) as [g|]; [|done].
  simpl in *. intros Hsize. apply map_size_empty_iff in Hsize. by subst.
Qed.

Lemma isTFXPod_last_token (containers : option (list corev1.Container))
    (c : corev1.Container) (command : list string) (last : string) :
  filter (fun c => corev1.Name c = "main") (elems containers) = [c] ->
  corev1.Command c = command ++ [last] ->
  isTFXPod containers = Returned (HasSuffix last TFXPodSuffix).
Proof.
  intros Hmain Hcommand.
  destruct (isTFXPod_total containers) as [tfx Htfx]. rewrite Htfx. f_equal.
  destruct tfx.
  - apply isTFXPod_spec in Htfx as (c' & command' & last' & Hmain' & Hcommand' & Hsuffix).
    rewrite Hmain in Hmain'. injection Hmain' as <-.
    rewrite Hcommand in Hcommand'. apply app_inj_tail in Hcommand' as [_ <-].
    symmetry. by apply HasSuffix_spec.
  - destruct (HasSuffix last TFXPodSuffix) eqn:Hsuffix; [|done].
    assert (isTFXPod containers = Returned true); [|congruence].
    apply isTFXPod_spec. exists c, command, last.
    split_and!; [done..|]. by apply HasSuffix_spec.
Qed.

(** The TFX test looks at nothing but the last command token of the one
    container named [main]: with no such container or with several the pod
    is not a TFX pod whatever the commands are, and with exactly one the
    answer is whether its last token has the entrypoint suffix, so that the
    suffix on an earlier token does not count. *)
Theorem isTFXPod_only_last_token_of_single_main
    (containers : option (list corev1.Container)) :
  (length (filter (fun c => corev1.Name c = "main") (elems containers)) <> 1%nat ->
   isTFXPod containers = Returned false)
  /\ (forall c command last,
        filter (fun c => corev1.Name c = "main") (elems containers) = [c] ->
        corev1.Command c = command ++ [last] ->
        isTFXPod containers = Returned (HasSuffix last TFXPodSuffix)).
Proof.
  split.
  - intros Hcount. destruct (isTFXPod_total containers) as [[|] Htfx]; [|done].
    apply isTFXPod_spec in Htfx as (c & _ & _ & Hmain & _).
    by rewrite Hmain in Hcount.
  - intros c command last. apply isTFXPod_last_token.
Qed.

Lemma isTFXPod_only_last_token_of_single_main_witness :
  isTFXPod (Some [tfxContainer; tfxContainer]) = Returned false
  /\ isTFXPod (Some [verboseContainer]) = Returned false.
Proof.
  split.
  - apply (isTFXPod_only_last_token_of_single_main (Some [tfxContainer; tfxContainer])).
    simpl. lia.
  - apply (proj2 (isTFXPod_only_last_token_of_single_main (Some [verboseContainer]))
             verboseContainer
             ["/tfx-src/tfx/orchestration/kubeflow/container_entrypoint.py"]
             "--verbose");
      reflexivity.
Defined.

(** [isValidPod] never panics, and it accepts exactly the pods that carry
    the workflow-node annotation and an annotation key containing the
    pipelines marker, unless exactly one container is named [main] and the
    last token of its command ends with the TFX entrypoint suffix. *)
Theorem isValidPod_characterised (pod : corev1.Pod) :
  (isValidPod pod = Returned true <->
   kfpArgoAnnotated pod
   /\ ~ exists c command last,
          mainContainersOf pod = [c]
          /\ corev1.Command c = command ++ [last]
          /\ isSuffix TFXPodSuffix last)
  /\ (isValidPod pod = Returned true \/ isValidPod pod = Returned false).
Proof.
  split.
  - change (isValidPod pod = Returned true) with (eligible pod).
    rewrite isValidPod_spec. unfold mainContainersOf. split.
    + intros (_ & Hkfp & Htfx). split; [done|].
      intros Hex. apply Htfx. by apply isTFXPod_spec.
    + intros [Hkfp Htfx]. split_and!; [by apply kfpArgoAnnotated_nonempty | done |].
      intros Hex. apply Htfx. by apply isTFXPod_spec.
  - destruct (isValidPod_total pod) as [[|] ->]; auto.
Qed.

Lemma isKFPArgoPod_dom (g : gmap string string) (podName : string) :
  isKFPArgoPod (Some g) podName = true <->
  ArgoWorkflowNodeName ∈ dom g
  /\ exists k, k ∈ dom g /\ isSubstring KFPAnnotation k.
Proof.
  unfold isKFPArgoPod. simpl. rewrite elem_of_dom.
  destruct (g !! ArgoWorkflowNodeName) as [node|] eqn:Hnode.
  - rewrite existsb_Contains. split.
    + intros (k & Hin & Hk). split; [by eexists|]. exists k. split; [|done].
      apply list_elem_of_fmap in Hin as ([k' v] & -> & Hin).
      apply elem_of_map_to_list in Hin. apply elem_of_dom. by eexists.
    + intros (_ & k & Hin & Hk). exists k. split; [|done].
      apply elem_of_dom in Hin as [v Hv].
      apply list_elem_of_fmap. exists (k, v). split; [done|].
      by apply elem_of_map_to_list.
  - split; [done|]. by intros [[? ?] _].
Qed.

(** [isKFPArgoPod] reads annotation keys only: two annotation maps with the
    same keys get the same answer, whatever the values and the pod name. *)
Theorem isKFPArgoPod_reads_keys_only (g g' : gmap string string) (name name' : string) :
  dom g = dom g' ->
  isKFPArgoPod (Some g) name = isKFPArgoPod (Some g') name'.
Proof.
  intros Hdom. apply Bool.eq_iff_eq_true.
  by rewrite !isKFPArgoPod_dom, Hdom.
Qed.

Lemma isKFPArgoPod_reads_keys_only_witness :
  isKFPArgoPod (Some exampleAnnotations) "step-1"
  = isKFPArgoPod (Some {[ "workflows.argoproj.io/node-name" := "";
                          "pipelines.kubeflow.org/x" := "";
                          "workflows.argoproj.io/template" := "" ]}) "other".
Proof.
  apply (isKFPArgoPod_reads_keys_only exampleAnnotations).
  vm_compute. reflexivity.
Defined.

(** ** The shape of a cache key *)

Lemma be_bytes_length (width : nat) (x : N) : length (sha256.be_bytes width x) = width.
Proof.
  unfold sha256.be_bytes.
  by rewrite List.length_map, List.length_rev, List.length_seq.
Qed.

Lemma block_length (hs chunk : list N) :
  length hs = 8%nat -> length (sha256.block hs chunk) = 8%nat.
Proof.
  intros Hhs. unfold sha256.block.
  destruct (fold_left sha256.round _ _) as [a b c d e f g h].
  rewrite length_zip_with, Hhs. reflexivity.
Qed.

Lemma blocks_length (count : nat) (hs ws : list N) :
  length hs = 8%nat -> length (sha256.blocks count hs ws) = 8%nat.
Proof.
  revert hs ws. induction count as [|count IH]; intros hs ws Hhs; simpl; [done|].
  apply IH. by apply block_length.
Qed.

(** A SHA-256 digest has 32 bytes. *)
Lemma Sum_length (b : list byte) : length (sha256.Sum b) = 32%nat.
Proof.
  unfold sha256.Sum.
  pose proof (blocks_length (length (sha256.words (sha256.padded b)) / 16)
                sha256.init (sha256.words (sha256.padded b)) eq_refl) as Hlen.
  revert Hlen. generalize (sha256.blocks
    (length (sha256.words (sha256.padded b)) / 16) sha256.init
    (sha256.words (sha256.padded b))).
  intros hs Hlen.
  assert (Hconcat : forall l : list N,
            length (concat (map (sha256.be_bytes 4) l)) = (4 * length l)%nat).
  { induction l as [|x l IH]; simpl; [done|]. rewrite IH. lia. }
  rewrite Hconcat, Hlen. reflexivity.
Qed.

Lemma EncodeToString_length (src : list byte) :
  String.length (EncodeToString src) = (2 * length src)%nat.
Proof. induction src as [|v src IH]; simpl; [done|]. rewrite IH. lia. Qed.

Lemma get_chars (n : nat) (s : string) (c : ascii) :
  String.get n s = Some c -> c ∈ chars s.
Proof.
  revert n. induction s as [|d s IH]; intros [|n] Hget; simpl in *; try done.
  - injection Hget as ->. apply list_elem_of_here.
  - apply list_elem_of_further. by eapply IH.
Qed.

Lemma hexdigit_chars (i : N) : hexdigit i ∈ chars hextable.
Proof.
  unfold hexdigit.
  destruct (String.get (N.to_nat i) hextable) as [c|] eqn:Hget.
  - by eapply get_chars.
  - apply list_elem_of_here.
Qed.

Lemma EncodeToString_chars (src : list byte) :
  Forall (fun c => c ∈ chars hextable) (chars (EncodeToString src)).
Proof.
  induction src as [|v src IH]; simpl; [constructor|].
  constructor; [apply hexdigit_chars|].
  constructor; [apply hexdigit_chars | done].
Qed.

(** A derived cache key is 64 characters long and made of the digits
    [0-9a-f]; when the derivation fails the key is the empty string, so a
    key is empty exactly when an error comes with it. *)
Theorem generateCacheKeyFromTemplate_key_format `{GoLibraries}
    (template key : string) (err : option error) :
  generateCacheKeyFromTemplate template = (key, err) ->
  match err with
  | None =>
      String.length key = 64%nat
      /\ Forall (fun c => c ∈ chars "0123456789abcdef") (chars key)
  | Some _ => key = ""
  end.
Proof.
  rewrite generateCacheKeyFromTemplate_eq.
  destruct (json_Unmarshal _) as [templateMap|cause]; [|by intros [= <- <-]].
  destruct (json_Marshal _) as [b|cause]; [|by intros [= <- <-]].
  intros [= <- <-]. split.
  - by rewrite EncodeToString_length, Sum_length.
  - apply EncodeToString_chars.
Qed.

Lemma generateCacheKeyFromTemplate_key_format_witness :
  String.length busyboxKey = 64%nat
  /\ Forall (fun c => c ∈ chars "0123456789abcdef") (chars busyboxKey).
Proof.
  apply (@generateCacheKeyFromTemplate_key_format exampleLibraries
           templateRun123 busyboxKey None).
  vm_compute. reflexivity.
Defined.

(** ** Package [main] *)

(** [getEnv] falls back to the default when the variable is not set and
    also when it is set to the empty string; otherwise it returns the
    value.  With a default that is not empty the result is never empty. *)
Theorem getEnv_fallback (environ : gmap string string) (key defaultValue : string) :
  (environ !! key = None -> main.getEnv environ key defaultValue = defaultValue)
  /\ (environ !! key = Some "" -> main.getEnv environ key defaultValue = defaultValue)
  /\ (forall value, environ !! key = Some value -> value <> "" ->
        main.getEnv environ key defaultValue = value)
  /\ (defaultValue <> "" -> main.getEnv environ key defaultValue <> "").
Proof.
  unfold main.getEnv, main.os_Getenv. split_and!.
  - by intros ->.
  - by intros ->.
  - intros value -> Hvalue. by destruct (String.eqb_spec value "").
  - intros Hdefault. destruct (environ !! key) as [value|]; simpl; [|done].
    by destruct (String.eqb_spec value "").
Qed.

Lemma getEnv_fallback_witness :
  main.getEnv ∅ "REDIS_HOST" "localhost" = "localhost"
  /\ main.getEnv {[ "REDIS_HOST" := "" ]} "REDIS_HOST" "localhost" = "localhost"
  /\ main.getEnv {[ "REDIS_HOST" := "redis.kubeflow" ]} "REDIS_HOST" "localhost"
     = "redis.kubeflow"
  /\ main.getEnv {[ "REDIS_HOST" := "" ]} "REDIS_HOST" "localhost" <> "".
Proof.
  split_and!.
  - apply (proj1 (getEnv_fallback ∅ "REDIS_HOST" "localhost")). reflexivity.
  - apply (proj1 (proj2 (getEnv_fallback {[ "REDIS_HOST" := "" ]}
                           "REDIS_HOST" "localhost"))).
    reflexivity.
  - apply (proj1 (proj2 (proj2 (getEnv_fallback {[ "REDIS_HOST" := "redis.kubeflow" ]}
                                  "REDIS_HOST" "localhost")))).
    + reflexivity.
    + discriminate.
  - apply (proj2 (proj2 (proj2 (getEnv_fallback {[ "REDIS_HOST" := "" ]}
                                  "REDIS_HOST" "localhost")))).
    discriminate.
Defined.

(** ** More on the admission decision *)

Lemma stampedAnnotations_idem (a : gmap string string) (key : string)
    (cached : option model.ExecutionCache) :
  stampedAnnotations (stampedAnnotations a key cached) key cached
  = stampedAnnotations a key cached.
Proof.
  unfold stampedAnnotations. destruct cached as [c|]; apply map_eq; intros k.
  - rewrite !lookup_insert. by repeat case_decide.
  - rewrite !lookup_insert. by repeat case_decide.
Qed.

Lemma stampedLabels_idem (l : gmap string string) (cached : option model.ExecutionCache) :
  stampedLabels (stampedLabels l cached) cached = stampedLabels l cached.
Proof.
  unfold stampedLabels. destruct cached as [c|]; apply map_eq; intros k.
  - rewrite !lookup_insert. by repeat case_decide.
  - rewrite !lookup_insert. by repeat case_decide.
Qed.

Lemma stampedAnnotations_keeps (a : gmap string string) (key : string)
    (cached : option model.ExecutionCache) (k : string) :
  is_Some (a !! k) -> is_Some (stampedAnnotations a key cached !! k).
Proof.
  intros Hk. unfold stampedAnnotations.
  destruct cached as [c|]; rewrite !lookup_insert; by repeat case_decide.
Qed.

Lemma stampedAnnotations_template (a : gmap string string) (key : string)
    (cached : option model.ExecutionCache) :
  stampedAnnotations a key cached !! ArgoWorkflowTemplate = a !! ArgoWorkflowTemplate.
Proof.
  unfold stampedAnnotations. destruct cached as [c|]; by rewrite !lookup_insert_ne.
Qed.

(** Eligibility survives any growth of the annotation keys. *)
Lemma eligible_withMaps (pod : corev1.Pod) (a a' : gmap string string)
    (labels : option (gmap string string)) :
  eligible pod ->
  metav1.Annotations (corev1.ObjectMeta pod) = Some a ->
  (forall k, is_Some (a !! k) -> is_Some (a' !! k)) ->
  eligible (withMaps pod (Some a') labels).
Proof.
  intros Hvalid Hann Hgrow.
  apply isValidPod_spec in Hvalid as (_ & Hkfp & Htfx).
  assert (Hkfp' : kfpArgoAnnotated (withMaps pod (Some a') labels)).
  { destruct Hkfp as [Hnode (k & Hk & Hmarker)].
    unfold kfpArgoAnnotated, hasAnnotation in *. rewrite Hann in Hnode, Hk.
    simpl in *. split; [by apply Hgrow|]. exists k. split; [by apply Hgrow | done]. }
  apply isValidPod_spec. split_and!; [by apply kfpArgoAnnotated_nonempty | done | done].
Qed.

Section decision_more.
Context `{GoLibraries}.
Implicit Types (req : v1beta1.AdmissionRequest) (clientMgr : ClientManagerInterface).
Implicit Types (pod : corev1.Pod).

(** The statements after decoding consult the store for one thing only:
    the record it holds for the fingerprint of the pod's template. *)
Lemma mutateDecodedPod_store clientMgr clientMgr' pod :
  (forall template key,
     mapIndex (metav1.Annotations (corev1.ObjectMeta pod)) ArgoWorkflowTemplate
       = Some template ->
     generateCacheKeyFromTemplate template = (key, None) ->
     (storage.GetExecutionCache (CacheStore clientMgr) key).1
     = (storage.GetExecutionCache (CacheStore clientMgr') key).1) ->
  mutateDecodedPod clientMgr pod = mutateDecodedPod clientMgr' pod.
Proof.
  intros Hsame.
  destruct (isValidPod_total pod) as [[|] Hvalid].
  2:{ by rewrite !mutateDecodedPod_ineligible. }
  destruct (eligible_annotations pod Hvalid) as [a Hann].
  rewrite Hann in Hsame. simpl in Hsame.
  destruct (a !! ArgoWorkflowTemplate) as [template|] eqn:Htemplate.
  2:{ rewrite !mutateDecodedPod_no_template; by rewrite ?Hann. }
  destruct (generateCacheKeyFromTemplate template) as [key [err|]] eqn:Hkey.
  { rewrite !(mutateDecodedPod_bad_template _ pod template key err);
      by rewrite ?Hann. }
  destruct (metav1.Labels (corev1.ObjectMeta pod)) as [l|] eqn:Hlabels.
  2:{ by rewrite !(mutateDecodedPod_nil_labels _ pod a template key). }
  specialize (Hsame template key eq_refl Hkey).
  destruct (storage.GetExecutionCache (CacheStore clientMgr) key)
    as [cached err] eqn:Hlookup.
  destruct (storage.GetExecutionCache (CacheStore clientMgr') key)
    as [cached' err'] eqn:Hlookup'.
  simpl in Hsame. subst cached'.
  rewrite (mutateDecodedPod_lookup clientMgr pod a l template key cached err) by done.
  by rewrite (mutateDecodedPod_lookup clientMgr' pod a l template key cached err').
Qed.

(** The outcome of [MutatePodIfCached] depends on the cache store only
    through the record it returns for the fingerprint of the pod's
    template: the error that comes with it and the answers for other keys
    change nothing. *)
Theorem MutatePodIfCached_store_dependence req clientMgr clientMgr' :
  (forall pod template key,
     universalDeserializer_Decode (v1beta1.Raw req) = ok pod ->
     mapIndex (metav1.Annotations (corev1.ObjectMeta pod)) ArgoWorkflowTemplate
       = Some template ->
     generateCacheKeyFromTemplate template = (key, None) ->
     (storage.GetExecutionCache (CacheStore clientMgr) key).1
     = (storage.GetExecutionCache (CacheStore clientMgr') key).1) ->
  MutatePodIfCached req clientMgr = MutatePodIfCached req clientMgr'.
Proof.
  intros Hsame.
  destruct (decide (v1beta1.Resource req = podResource)) as [Hres|Hres].
  2:{ by rewrite !MutatePodIfCached_other_resource. }
  destruct (universalDeserializer_Decode (v1beta1.Raw req)) as [pod|cause] eqn:Hdecode.
  2:{ by rewrite !(MutatePodIfCached_decode_error _ _ cause). }
  rewrite !(MutatePodIfCached_decoded _ _ pod) by done.
  by rewrite (mutateDecodedPod_store clientMgr clientMgr' pod) by eauto.
Qed.

(** An error is returned exactly when the resource is [pods] and the
    object does not decode; the patch list is then empty and the message
    is the decoder's, behind a fixed prefix. *)
Theorem MutatePodIfCached_error_iff req clientMgr patches err :
  resultOf (MutatePodIfCached req clientMgr) = Returned (patches, Some err) <->
  v1beta1.Resource req = podResource
  /\ patches = []
  /\ exists cause,
       universalDeserializer_Decode (v1beta1.Raw req) = fail cause
       /\ err = "could not deserialize pod object: " +:+ cause.
Proof.
  unfold resultOf. split.
  - destruct (decide (v1beta1.Resource req = podResource)) as [Hres|Hres].
    2:{ by rewrite MutatePodIfCached_other_resource. }
    destruct (universalDeserializer_Decode (v1beta1.Raw req)) as [pod|cause] eqn:Hdecode.
    2:{ erewrite MutatePodIfCached_decode_error by done. intros [= <- <-]. eauto. }
    erewrite MutatePodIfCached_decoded by done. simpl.
    destruct (mutateDecodedPod_cases clientMgr pod)
      as [Hrun | (a & template & key & _ & _ & _ & _ & Hrun)].
    { by rewrite Hrun. }
    destruct Hrun as [[_ Hrun] | (l & cached & e & _ & _ & Hrun)]; by rewrite Hrun.
  - intros (Hres & -> & cause & Hdecode & ->).
    by erewrite MutatePodIfCached_decode_error.
Qed.

(** With a label map that is not nil the call returns, and without error:
    an ineligible pod, a missing or malformed template and a failing
    lookup all end in a patch list and a nil error. *)
Theorem MutatePodIfCached_returns_with_labels req clientMgr pod :
  universalDeserializer_Decode (v1beta1.Raw req) = ok pod ->
  is_Some (metav1.Labels (corev1.ObjectMeta pod)) ->
  exists patches,
    resultOf (MutatePodIfCached req clientMgr) = Returned (patches, None).
Proof.
  intros Hdecode [l Hlabels]. unfold resultOf.
  destruct (decide (v1beta1.Resource req = podResource)) as [Hres|Hres].
  2:{ rewrite MutatePodIfCached_other_resource by done. eauto. }
  erewrite MutatePodIfCached_decoded by done. simpl.
  destruct (mutateDecodedPod_cases clientMgr pod)
    as [Hrun | (a & template & key & _ & _ & _ & _ & Hrun)].
  { rewrite Hrun. eauto. }
  destruct Hrun as [[Hnil _] | (l' & cached & e & _ & _ & Hrun)]; [congruence|].
  rewrite Hrun. eauto.
Qed.

(** A returned patch list has one of four shapes: empty; the two add
    operations; the container replace before them; the container replace
    and the init-container remove before them.  No other operation, path or
    order is ever produced. *)
Theorem MutatePodIfCached_patch_shapes req clientMgr patches e :
  resultOf (MutatePodIfCached req clientMgr) = Returned (patches, e) ->
  patches = []
  \/ patches = [addAnnotations; addLabels]
  \/ patches = [replaceContainers; addAnnotations; addLabels]
  \/ patches = [replaceContainers; removeInitContainers; addAnnotations; addLabels].
Proof.
  unfold resultOf.
  destruct (decide (v1beta1.Resource req = podResource)) as [Hres|Hres].
  2:{ rewrite MutatePodIfCached_other_resource by done. intros [= <- _]. auto. }
  destruct (universalDeserializer_Decode (v1beta1.Raw req)) as [pod|cause] eqn:Hdecode.
  2:{ erewrite MutatePodIfCached_decode_error by done. intros [= <- _]. auto. }
  erewrite MutatePodIfCached_decoded by done. simpl.
  destruct (mutateDecodedPod_cases clientMgr pod)
    as [Hrun | (a & template & key & _ & _ & _ & _ & Hrun)].
  { rewrite Hrun. intros [= <- _]. auto. }
  destruct Hrun as [[_ Hrun] | (l & cached & err & _ & _ & Hrun)];
    rewrite Hrun; simpl; [done|].
  intros [= <- _]. unfold decisionPatches.
  destruct cached as [c|];
    [destruct (isNil (corev1.InitContainers (corev1.Spec pod)))|]; simpl; auto.
Qed.

(** No patch and no error is the outcome exactly when the resource is not
    [pods], or the decoded pod is not eligible or has no template
    annotation from which a fingerprint derives. *)
Theorem MutatePodIfCached_pass_through req clientMgr :
  resultOf (MutatePodIfCached req clientMgr) = Returned ([], None) <->
  v1beta1.Resource req <> podResource
  \/ exists pod,
       universalDeserializer_Decode (v1beta1.Raw req) = ok pod
       /\ ~ (eligible pod
             /\ exists template key,
                  mapIndex (metav1.Annotations (corev1.ObjectMeta pod))
                    ArgoWorkflowTemplate = Some template
                  /\ generateCacheKeyFromTemplate template = (key, None)).
Proof.
  unfold resultOf. split.
  - destruct (decide (v1beta1.Resource req = podResource)) as [Hres|Hres]; [|auto].
    destruct (universalDeserializer_Decode (v1beta1.Raw req)) as [pod|cause] eqn:Hdecode.
    2:{ by erewrite MutatePodIfCached_decode_error. }
    erewrite MutatePodIfCached_decoded by done. simpl. intros Hrun.
    right. exists pod. split; [done|].
    intros (Hvalid & template & key & Htemplate & Hkey).
    destruct (eligible_annotations pod Hvalid) as [a Hann].
    rewrite Hann in Htemplate. simpl in Htemplate.
    destruct (metav1.Labels (corev1.ObjectMeta pod)) as [l|] eqn:Hlabels.
    + destruct (storage.GetExecutionCache (CacheStore clientMgr) key)
        as [cached err] eqn:Hlookup.
      erewrite mutateDecodedPod_lookup in Hrun by done. simpl in Hrun.
      injection Hrun as Hrun. unfold decisionPatches in Hrun. by destruct cached.
    + by erewrite mutateDecodedPod_nil_labels in Hrun.
  - intros [Hres | (pod & Hdecode & Hnot)].
    { by rewrite MutatePodIfCached_other_resource. }
    destruct (decide (v1beta1.Resource req = podResource)) as [Hres|Hres].
    2:{ by rewrite MutatePodIfCached_other_resource. }
    erewrite MutatePodIfCached_decoded by done. simpl.
    destruct (mutateDecodedPod_cases clientMgr pod)
      as [Hrun | (a & template & key & Hvalid & Hann & Htemplate & Hkey & _)].
    { by rewrite Hrun. }
    exfalso. apply Hnot. split; [done|]. exists template, key. by rewrite Hann.
Qed.

(** On the way through the lookup the outputs annotation of the pod is,
    on a hit, the execution output of the record, copied as it is, and on a
    miss what the pod already had, be it nothing or an older value. *)
Theorem MutatePodIfCached_outputs_annotation req clientMgr pod template key cached err :
  v1beta1.Resource req = podResource ->
  universalDeserializer_Decode (v1beta1.Raw req) = ok pod ->
  eligible pod ->
  mapIndex (metav1.Annotations (corev1.ObjectMeta pod)) ArgoWorkflowTemplate
    = Some template ->
  generateCacheKeyFromTemplate template = (key, None) ->
  is_Some (metav1.Labels (corev1.ObjectMeta pod)) ->
  storage.GetExecutionCache (CacheStore clientMgr) key = (cached, err) ->
  exists pod',
    podAfter (MutatePodIfCached req clientMgr) = Some pod'
    /\ mapIndex (metav1.Annotations (corev1.ObjectMeta pod')) ArgoWorkflowOutputs
       = match cached with
         | Some c => Some (model.ExecutionOutput c)
         | None =>
             mapIndex (metav1.Annotations (corev1.ObjectMeta pod)) ArgoWorkflowOutputs
         end.
Proof.
  intros Hres Hdecode Hvalid Htemplate Hkey [l Hlabels] Hlookup.
  destruct (eligible_annotations pod Hvalid) as [a Hann].
  rewrite Hann in Htemplate |- *. simpl in Htemplate.
  unfold podAfter. erewrite MutatePodIfCached_decoded by done.
  erewrite mutateDecodedPod_lookup by done. simpl.
  eexists. split; [done|]. simpl. unfold stampedAnnotations.
  destruct cached as [c|].
  - by rewrite lookup_insert_eq.
  - by rewrite lookup_insert_ne.
Qed.

(** On a cache hit the remove of the init-container list is emitted
    exactly when that slice is not nil, an empty slice included. *)
Theorem MutatePodIfCached_remove_iff_not_nil req clientMgr pod template key cached err :
  v1beta1.Resource req = podResource ->
  universalDeserializer_Decode (v1beta1.Raw req) = ok pod ->
  eligible pod ->
  mapIndex (metav1.Annotations (corev1.ObjectMeta pod)) ArgoWorkflowTemplate
    = Some template ->
  generateCacheKeyFromTemplate template = (key, None) ->
  is_Some (metav1.Labels (corev1.ObjectMeta pod)) ->
  storage.GetExecutionCache (CacheStore clientMgr) key = (Some cached, err) ->
  exists patches,
    resultOf (MutatePodIfCached req clientMgr) = Returned (patches, None)
    /\ ({| Op := "remove"; Path := "/spec/initContainers"; Value := noValue |} ∈ patches
        <-> corev1.InitContainers (corev1.Spec pod) <> None).
Proof.
  intros Hres Hdecode Hvalid Htemplate Hkey [l Hlabels] Hlookup.
  destruct (eligible_annotations pod Hvalid) as [a Hann].
  rewrite Hann in Htemplate. simpl in Htemplate.
  unfold resultOf. erewrite MutatePodIfCached_decoded by done.
  erewrite mutateDecodedPod_lookup by done. simpl.
  eexists. split; [done|]. apply remove_emitted_iff_not_nil.
Qed.

(** A pod that was eligible is still eligible after the call, on every
    path: the call only adds annotation keys and leaves the containers. *)
Theorem MutatePodIfCached_keeps_eligible req clientMgr pod pod' :
  universalDeserializer_Decode (v1beta1.Raw req) = ok pod ->
  eligible pod ->
  podAfter (MutatePodIfCached req clientMgr) = Some pod' ->
  eligible pod'.
Proof.
  intros Hdecode Hvalid Hafter.
  apply MutatePodIfCached_podAfter in Hafter as (pod0 & _ & Hdecode' & ->).
  rewrite Hdecode in Hdecode'. injection Hdecode' as <-.
  destruct (mutateDecodedPod_cases clientMgr pod)
    as [Hrun | (a & template & key & _ & Hann & _ & _ & Hrun)].
  { by rewrite Hrun. }
  destruct Hrun as [[_ Hrun] | (l & cached & err & _ & _ & Hrun)];
    rewrite Hrun; simpl.
  - eapply eligible_withMaps; [done..|].
    intros k Hk. rewrite lookup_insert. by case_decide.
  - eapply eligible_withMaps; [done..|].
    intros k. apply stampedAnnotations_keeps.
Qed.

(** Admitting the pod a second time, as the first call left it and with
    the same store, gives the same patch list and changes the pod no
    further. *)
Theorem MutatePodIfCached_readmission req req' clientMgr pod pod' patches :
  universalDeserializer_Decode (v1beta1.Raw req) = ok pod ->
  MutatePodIfCached req clientMgr = (Returned (patches, None), Some pod') ->
  v1beta1.Resource req' = podResource ->
  universalDeserializer_Decode (v1beta1.Raw req') = ok pod' ->
  MutatePodIfCached req' clientMgr = (Returned (patches, None), Some pod').
Proof.
  intros Hdecode Hrun Hres' Hdecode'.
  assert (Hafter : podAfter (MutatePodIfCached req clientMgr) = Some pod')
    by (by rewrite Hrun).
  apply MutatePodIfCached_podAfter in Hafter as (pod0 & Hres & Hdecode0 & Hpod').
  rewrite Hdecode in Hdecode0. injection Hdecode0 as <-.
  erewrite MutatePodIfCached_decoded in Hrun by done.
  injection Hrun as Hresult _.
  erewrite MutatePodIfCached_decoded by done.
  destruct (mutateDecodedPod_cases clientMgr pod)
    as [Hcase | (a & template & key & Hvalid & Hann & Htemplate & Hkey & Hcase)].
  { rewrite Hcase in Hresult, Hpod'. simpl in *. subst pod'.
    injection Hresult as <-. by rewrite Hcase. }
  destruct Hcase as [[_ Hcase] | (l & cached & err & Hlabels & Hlookup & Hcase)];
    rewrite Hcase in Hresult, Hpod'; simpl in *; [done|].
  injection Hresult as <-. subst pod'.
  erewrite (mutateDecodedPod_lookup clientMgr _
              (stampedAnnotations a key cached) (stampedLabels l cached)
              template key cached err); try done.
  - simpl. unfold withMaps. simpl.
    by rewrite stampedAnnotations_idem, stampedLabels_idem.
  - eapply eligible_withMaps; [done..|]. intros k. apply stampedAnnotations_keeps.
  - by rewrite stampedAnnotations_template.
Qed.

End decision_more.

Lemma MutatePodIfCached_store_dependence_witness :
  @MutatePodIfCached exampleLibraries (podRequest bodyOneInit) errorManager
  = @MutatePodIfCached exampleLibraries (podRequest bodyOneInit) missManager.
Proof.
  apply (@MutatePodIfCached_store_dependence exampleLibraries
           (podRequest bodyOneInit) errorManager missManager).
  intros pod template key _ _ _. reflexivity.
Defined.

Lemma MutatePodIfCached_returns_with_labels_witness :
  exists patches,
    resultOf (@MutatePodIfCached exampleLibraries (podRequest bodyLabelled) errorManager)
    = Returned (patches, None).
Proof.
  apply (@MutatePodIfCached_returns_with_labels exampleLibraries
           (podRequest bodyLabelled) errorManager
           (examplePod (Some exampleLabels) None)).
  - reflexivity.
  - by eexists.
Defined.

Lemma MutatePodIfCached_patch_shapes_witness :
  [replaceContainers; addAnnotations; addLabels] = []
  \/ [replaceContainers; addAnnotations; addLabels] = [addAnnotations; addLabels]
  \/ [replaceContainers; addAnnotations; addLabels]
     = [replaceContainers; addAnnotations; addLabels]
  \/ [replaceContainers; addAnnotations; addLabels]
     = [replaceContainers; removeInitContainers; addAnnotations; addLabels].
Proof.
  apply (@MutatePodIfCached_patch_shapes exampleLibraries
           (podRequest bodyLabelled) hitManager
           [replaceContainers; addAnnotations; addLabels] None).
  vm_compute. reflexivity.
Defined.

Lemma MutatePodIfCached_outputs_annotation_witness :
  exists pod',
    podAfter (@MutatePodIfCached exampleLibraries (podRequest bodyLabelled) hitManager)
    = Some pod'
    /\ mapIndex (metav1.Annotations (corev1.ObjectMeta pod')) ArgoWorkflowOutputs
       = Some (model.ExecutionOutput exampleRecord).
Proof.
  apply (@MutatePodIfCached_outputs_annotation exampleLibraries
           (podRequest bodyLabelled) hitManager
           (examplePod (Some exampleLabels) None) templateRun123 busyboxKey
           (Some exampleRecord) None);
    try reflexivity.
  by eexists.
Defined.

Lemma MutatePodIfCached_remove_iff_not_nil_witness :
  exists patches,
    resultOf (@MutatePodIfCached exampleLibraries (podRequest bodyEmptyInit) hitManager)
    = Returned (patches, None)
    /\ ({| Op := "remove"; Path := "/spec/initContainers"; Value := noValue |} ∈ patches
        <-> Some [] <> (None : option (list corev1.Container))).
Proof.
  apply (@MutatePodIfCached_remove_iff_not_nil exampleLibraries
           (podRequest bodyEmptyInit) hitManager
           (examplePod (Some exampleLabels) (Some [])) templateRun123 busyboxKey
           exampleRecord None);
    try reflexivity.
  by eexists.
Defined.

Lemma MutatePodIfCached_keeps_eligible_witness :
  eligible (withMaps (examplePod None None)
              (Some (<[ExecutionKey:=busyboxKey]> exampleAnnotations)) None).
Proof.
  apply (@MutatePodIfCached_keeps_eligible exampleLibraries
           (podRequest bodyNoLabels) missManager (examplePod None None));
    reflexivity.
Defined.

Lemma MutatePodIfCached_readmission_witness :
  @MutatePodIfCached readmissionLibraries (podRequest bodyStamped) missManager
  = (Returned ([addAnnotations; addLabels], None), Some stampedPod).
Proof.
  apply (@MutatePodIfCached_readmission readmissionLibraries
           (podRequest bodyLabelled) (podRequest bodyStamped) missManager
           (examplePod (Some exampleLabels) None) stampedPod
           [addAnnotations; addLabels]);
    vm_compute; reflexivity.
Defined.
